(** * BitsoAA: the smart-account orchestration endpoint and the swap client

    A shallow embedding of

    - [src/app/api/smartaccount/route.ts]: the [GET] and [POST] handlers of
      the orchestration endpoint;
    - [src/app/swap/page.tsx]: [pollForAllowance] and [handleSwap] of the
      swap client.

    Both files are sequences of awaited calls into third-party services (the
    account-abstraction SDK, the chain RPC, [fetch]).  Those services are
    modelled as oracles: a world answers every external call, and its answer
    may depend on everything that happened before (the history).  A handler
    is a computation in a small monad that threads the history and
    propagates JavaScript exceptions; running it yields the handler's
    outcome together with the trace of every external interaction, with the
    arguments passed and the answer received. *)

From Stdlib Require Import String List NArith Bool Lia DecimalString.
From ExtLib Require Import Structures.Monad Structures.MonadExc.
Import ListNotations.
Import MonadNotation.
Local Open Scope string_scope.
Local Open Scope list_scope.
Local Open Scope monad_scope.


(** ** JavaScript values shared by both files *)

Definition Address := string.
Definition Hex := string.
Definition Hash := string.

(** A thrown value.  Everything the SDKs and the runtime throw is an [Error]
    object: [message] is its [.message] (empty when absent) and [rendering]
    is what [String(err)] gives. *)
Record JsError : Type := mkError {
  message : string;
  rendering : string
}.

(** [new Error(msg)] and the runtime's [TypeError]. *)
Definition newError (msg : string) : JsError :=
  mkError msg (String.append "Error: " msg).
Definition typeError (msg : string) : JsError :=
  mkError msg (String.append "TypeError: " msg).

(** JavaScript truthiness of a string: only the empty string is falsy. *)
Definition truthy (s : string) : bool :=
  match s with
  | EmptyString => false
  | String _ _ => true
  end.

(** [a || b] on strings. *)
Definition or_else (a b : string) : string :=
  if truthy a then a else b.

(** Truthiness of a possibly [undefined] string ([!x] is its negation). *)
Definition present (x : option string) : bool :=
  match x with
  | Some s => truthy s
  | None => false
  end.

(** [err.message || String(err)]. *)
Definition messageOf (err : JsError) : string :=
  or_else (message err) (rendering err).

(** The payload of a call.  The hexadecimal ABI encoding is kept symbolic:
    [encodeFunctionData] is injective on the two functions the client
    encodes, and any other payload is its raw hex string. *)
Inductive CallData : Type :=
| approve (spender : Address) (amount : N)
| swapAToB (amount : N)
| rawData (hex : Hex).

(** ** The effect monad

    [Eff W Ev A]: a computation that reads the world [W], extends the
    history of events [Ev] and either throws a [JsError] or returns an
    [A].  The history survives a throw, so that [catch] sees (and keeps)
    what happened before the exception. *)

Definition Eff (W Ev A : Type) : Type :=
  W -> list Ev -> (JsError + A) * list Ev.

#[global] Instance Monad_Eff (W Ev : Type) : Monad (Eff W Ev) := {
  ret := fun A (a : A) => (fun _ h => (inr a, h)) : Eff W Ev A;
  bind := fun A B (c : Eff W Ev A) (k : A -> Eff W Ev B) =>
    (fun w h =>
       match c w h with
       | (inl e, h') => (inl e, h')
       | (inr a, h') => k a w h'
       end) : Eff W Ev B
}.

#[global] Instance Exc_Eff (W Ev : Type) : MonadExc JsError (Eff W Ev) := {
  raise := fun A (e : JsError) => (fun _ h => (inl e, h)) : Eff W Ev A;
  catch := fun A (c : Eff W Ev A) (handler : JsError -> Eff W Ev A) =>
    (fun w h =>
       match c w h with
       | (inl e, h') => handler e w h'
       | (inr a, h') => (inr a, h')
       end) : Eff W Ev A
}.

Section Effects.
Context {W Ev : Type}.

(** An awaited (or synchronous) call into an external service: the world
    answers from the history, and the call and its answer are recorded. *)
Definition external {A : Type}
    (oracle : W -> list Ev -> JsError + A)
    (record : JsError + A -> Ev) : Eff W Ev A :=
  fun w h => let r := oracle w h in (r, h ++ [record r]).

(** An effect that cannot fail ([console.error], [setTimeout], a React
    state setter). *)
Definition emit (e : Ev) : Eff W Ev unit :=
  fun _ h => (inr tt, h ++ [e]).

(** A value that is already an answer or an exception. *)
Definition settle {A : Type} (r : JsError + A) : Eff W Ev A :=
  fun _ h => (r, h).

(** A pure library function that may throw; it reads the world only for
    its implementation and leaves no event. *)
Definition pureCall {A : Type} (f : W -> JsError + A) : Eff W Ev A :=
  fun w h => (f w, h).

(** [try { c } finally { f }]: [f] runs whatever [c] did; its own
    exception, if any, replaces the outcome of [c]. *)
Definition finally {A : Type} (c : Eff W Ev A) (f : Eff W Ev unit)
    : Eff W Ev A :=
  fun w h =>
    match c w h with
    | (r, h') =>
        match f w h' with
        | (inl e, h'') => (inl e, h'')
        | (inr _, h'') => (r, h'')
        end
    end.

(** A safety property of a trace: [R past ev] holds at every event [ev],
    [past] being the events before it. *)
Fixpoint everyLater (R : list Ev -> Ev -> Prop) (past tr : list Ev)
    : Prop :=
  match tr with
  | [] => True
  | ev :: rest => R past ev /\ everyLater R (past ++ [ev]) rest
  end.

Definition always (R : list Ev -> Ev -> Prop) (tr : list Ev) : Prop :=
  everyLater R [] tr.

(** The same with what follows in view: [R past ev rest] holds at every
    event [ev], between the events before it and the events after it. *)
Fixpoint everySplit (R : list Ev -> Ev -> list Ev -> Prop)
    (past tr : list Ev) : Prop :=
  match tr with
  | [] => True
  | ev :: rest => R past ev rest /\ everySplit R (past ++ [ev]) rest
  end.

Definition atEveryEvent (R : list Ev -> Ev -> list Ev -> Prop)
    (tr : list Ev) : Prop :=
  everySplit R [] tr.

(** Run a handler from the empty history. *)
Definition run {A : Type} (c : Eff W Ev A) (w : W) : (JsError + A) * list Ev :=
  c w [].
End Effects.

(** * The orchestration endpoint, [src/app/api/smartaccount/route.ts] *)

Module Route.

(** ** Data *)

(** [process.env]. *)
Record ProcessEnv : Type := {
  PRIVATE_KEY : option string;
  ZERODEV_RPC : option string
}.

(** One entry of the request's [calls] array.  The handler reads [to] and
    [data]; a [value] the caller may have put there is never read. *)
Record Call : Type := {
  to : Address;
  data : CallData;
  value : option N
}.

(** The parsed request body; [calls] is [None] when the body has no such
    field. *)
Record Body : Type := {
  calls : option (list Call)
}.

(** The request: what [const { calls } = await req.json()] has to work
    with, the parsed body or the exception of a body that is not a JSON
    object.  [calls], when present, is an array of objects. *)
Record Request : Type := {
  json : JsError + Body
}.

(** The call objects the handler builds for the SDK. *)
Record SdkCall : Type := {
  sdk_to : Address;
  sdk_value : N;
  sdk_data : CallData
}.

(** SDK constants and objects.  Their insides belong to the SDK; the
    handler only passes them on, and reads [address] of the account. *)
Record EntryPoint : Type := { ep_version : string }.
Definition getEntryPoint (version : string) : EntryPoint :=
  {| ep_version := version |}.
Definition KERNEL_V3_1 : string := "0.3.1".
Record Chain : Type := { chain_id : N }.
Definition sepolia : Chain := {| chain_id := 11155111 |}.

Record LocalAccount : Type := { signer_address : Address }.
Record PublicClient : Type := { pc_transport : string; pc_chain : Chain }.
Record Validator : Type := { validator_address : Address }.
Record KernelAccount : Type := { address : Address }.
Record PaymasterClient : Type := { pm_transport : string }.
Record KernelClient : Type := {
  kc_account : KernelAccount;
  kc_paymaster : PaymasterClient
}.
Record Receipt : Type := { success : bool }.

(** The argument of [client.sendUserOperation]. *)
Inductive UserOperation : Type :=
| withCallData (callData : Hex) (preVerificationGas : N)
| withCalls (batch : list SdkCall) (preVerificationGas : N).

(** The body and status of a [NextResponse.json]. *)
Inductive Payload : Type :=
| addressPayload (a : Address)
| userOpHashPayload (h : Hash)
| errorPayload (error : string).

Record Response : Type := {
  body : Payload;
  status : N
}.

Definition NextResponse_json (p : Payload) (st : option N) : Response :=
  {| body := p;
     status := match st with Some s => s | None => 200 end |}.

(** ** Events and the world *)

Inductive Event : Type :=
| EvReqJson (r : JsError + Body)
| EvPrivateKeyToAccount (key : string) (r : JsError + LocalAccount)
| EvCreatePublicClient (rpc : string) (chain : Chain) (r : JsError + PublicClient)
| EvSignerToEcdsaValidator (pc : PublicClient) (signer : LocalAccount)
    (ep : EntryPoint) (kernel : string) (r : JsError + Validator)
| EvCreateKernelAccount (pc : PublicClient) (sudo : Validator)
    (ep : EntryPoint) (kernel : string) (r : JsError + KernelAccount)
| EvCreatePaymasterClient (chain : Chain) (rpc : string)
    (r : JsError + PaymasterClient)
| EvCreateKernelAccountClient (account : KernelAccount) (chain : Chain)
    (rpc : string) (pc : PublicClient) (pm : PaymasterClient)
    (r : JsError + KernelClient)
| EvEncodeCalls (account : KernelAccount) (batch : list SdkCall)
    (r : JsError + Hex)
| EvSendUserOperation (client : KernelClient) (op : UserOperation)
    (r : JsError + Hash)
| EvWaitForUserOperationReceipt (client : KernelClient) (hash : Hash)
    (r : JsError + Receipt)
| EvSetTimeout (ms : N)
| EvReadAllowance (pc : PublicClient) (token owner spender : Address)
    (r : JsError + N)
| EvConsoleError (label : string) (err : JsError).

Definition History := list Event.

(** The services the handlers talk to.  Every answer may depend on the
    whole history, so a world can answer the same question differently the
    second time. *)
Record World : Type := {
  privateKeyToAccount : History -> string -> JsError + LocalAccount;
  createPublicClient : History -> string -> Chain -> JsError + PublicClient;
  signerToEcdsaValidator :
    History -> PublicClient -> LocalAccount -> EntryPoint -> string ->
    JsError + Validator;
  createKernelAccount :
    History -> PublicClient -> Validator -> EntryPoint -> string ->
    JsError + KernelAccount;
  createZeroDevPaymasterClient :
    History -> Chain -> string -> JsError + PaymasterClient;
  createKernelAccountClient :
    History -> KernelAccount -> Chain -> string -> PublicClient ->
    PaymasterClient -> JsError + KernelClient;
  encodeCalls : History -> KernelAccount -> list SdkCall -> JsError + Hex;
  sendUserOperation :
    History -> KernelClient -> UserOperation -> JsError + Hash;
  waitForUserOperationReceipt :
    History -> KernelClient -> Hash -> JsError + Receipt;
  readAllowance :
    History -> PublicClient -> Address -> Address -> Address -> JsError + N
}.

Definition Handler := Eff World Event.

(** ** The handlers *)

Definition missingEnv : Response :=
  NextResponse_json (errorPayload "Missing env vars") (Some 500%N).

(** [calls.length]: a [TypeError] when [calls] is [undefined]. *)
Definition lengthOf (cs : option (list Call)) : Handler nat :=
  match cs with
  | Some l => ret (List.length l)
  | None =>
      raise (typeError "Cannot read properties of undefined (reading 'length')")
  end.

(** [calls[i]] for an index the handler has checked to be in range. *)
Definition item (l : list Call) (i : nat) : Handler Call :=
  match nth_error l i with
  | Some c => ret c
  | None =>
      raise (typeError "Cannot read properties of undefined (reading 'to')")
  end.

(** [{ to: call.to, value: BigInt(0), data: call.data }]. *)
Definition zeroValued (c : Call) : SdkCall :=
  {| sdk_to := to c; sdk_value := 0%N; sdk_data := data c |}.

Definition GET (env : ProcessEnv) : Handler Response :=
  if negb (present (PRIVATE_KEY env)) || negb (present (ZERODEV_RPC env))
  then ret missingEnv
  else
    let privateKey := match PRIVATE_KEY env with Some k => k | None => "" end in
    let rpc := match ZERODEV_RPC env with Some u => u | None => "" end in
    catch
      (let entryPoint := getEntryPoint "0.7" in
       let kernelVersion := KERNEL_V3_1 in
       let chain := sepolia in
       signer <- external (fun w h => privateKeyToAccount w h privateKey)
                   (EvPrivateKeyToAccount privateKey) ;;
       publicClient <- external (fun w h => createPublicClient w h rpc chain)
                         (EvCreatePublicClient rpc chain) ;;
       validator <-
         external
           (fun w h => signerToEcdsaValidator w h publicClient signer
                         entryPoint kernelVersion)
           (EvSignerToEcdsaValidator publicClient signer entryPoint
              kernelVersion) ;;
       account <-
         external
           (fun w h => createKernelAccount w h publicClient validator
                         entryPoint kernelVersion)
           (EvCreateKernelAccount publicClient validator entryPoint
              kernelVersion) ;;
       ret (NextResponse_json (addressPayload (address account)) None))
      (fun err =>
         emit (EvConsoleError "API /api/smartaccount GET error:" err) ;;
         ret (NextResponse_json (errorPayload (rendering err)) (Some 500%N))).

(** The approve step of the two-call branch (the first inner [try]).  It
    yields [Some response] where the source returns from the handler and
    [None] where control falls through to the swap step. *)
Definition approveStep (l : list Call) (publicClient : PublicClient)
    (account : KernelAccount) (client : KernelClient)
    : Handler (option Response) :=
  catch
    (call0 <- item l 0 ;;
     approveCallData <-
       external (fun w h => encodeCalls w h account [zeroValued call0])
         (EvEncodeCalls account [zeroValued call0]) ;;
     approveUserOpHash <-
       external
         (fun w h => sendUserOperation w h client
                       (withCallData approveCallData 70000))
         (EvSendUserOperation client (withCallData approveCallData 70000)) ;;
     approveReceipt <-
       external
         (fun w h => waitForUserOperationReceipt w h client approveUserOpHash)
         (EvWaitForUserOperationReceipt client approveUserOpHash) ;;
     emit (EvSetTimeout 30000) ;;
     call1 <- item l 1 ;;
     allowance <-
       external
         (fun w h => readAllowance w h publicClient (to call0)
                       (address account) (to call1))
         (EvReadAllowance publicClient (to call0) (address account)
            (to call1)) ;;
     if (allowance =? 0)%N
     then ret (Some (NextResponse_json (errorPayload "Allowance not updated")
                       (Some 400%N)))
     else ret None)
    (fun approveErr =>
       emit (EvConsoleError "Approve step failed:" approveErr) ;;
       let message := messageOf approveErr in
       ret (Some (NextResponse_json
                    (errorPayload (String.append "Approve failed: " message))
                    (Some 500%N)))).

(** The swap step of the two-call branch (the second inner [try]). *)
Definition swapStep (l : list Call) (account : KernelAccount)
    (client : KernelClient) : Handler Response :=
  catch
    (call1 <- item l 1 ;;
     swapCallData <-
       external (fun w h => encodeCalls w h account [zeroValued call1])
         (EvEncodeCalls account [zeroValued call1]) ;;
     swapUserOpHash <-
       external
         (fun w h => sendUserOperation w h client
                       (withCallData swapCallData 70000))
         (EvSendUserOperation client (withCallData swapCallData 70000)) ;;
     ret (NextResponse_json (userOpHashPayload swapUserOpHash) None))
    (fun swapErr =>
       emit (EvConsoleError "Swap step failed:" swapErr) ;;
       let message := messageOf swapErr in
       ret (NextResponse_json
              (errorPayload (String.append "Swap failed: " message))
              (Some 500%N))).

(** The [else] branch: every call in one user operation. *)
Definition singleStep (l : list Call) (client : KernelClient)
    : Handler Response :=
  catch
    (userOpHash <-
       external
         (fun w h => sendUserOperation w h client
                       (withCalls (map zeroValued l) 70000))
         (EvSendUserOperation client (withCalls (map zeroValued l) 70000)) ;;
     ret (NextResponse_json (userOpHashPayload userOpHash) None))
    (fun singleErr =>
       emit (EvConsoleError "Single call failed:" singleErr) ;;
       let message := messageOf singleErr in
       ret (NextResponse_json (errorPayload message) (Some 500%N))).

Definition POST (env : ProcessEnv) (req : Request) : Handler Response :=
  if negb (present (PRIVATE_KEY env)) || negb (present (ZERODEV_RPC env))
  then ret missingEnv
  else
    let privateKey := match PRIVATE_KEY env with Some k => k | None => "" end in
    let rpc := match ZERODEV_RPC env with Some u => u | None => "" end in
    catch
      (parsed <- external (fun _ _ => json req) EvReqJson ;;
       let calls := calls parsed in
       let entryPoint := getEntryPoint "0.7" in
       let kernelVersion := KERNEL_V3_1 in
       let chain := sepolia in
       signer <- external (fun w h => privateKeyToAccount w h privateKey)
                   (EvPrivateKeyToAccount privateKey) ;;
       publicClient <- external (fun w h => createPublicClient w h rpc chain)
                         (EvCreatePublicClient rpc chain) ;;
       validator <-
         external
           (fun w h => signerToEcdsaValidator w h publicClient signer
                         entryPoint kernelVersion)
           (EvSignerToEcdsaValidator publicClient signer entryPoint
              kernelVersion) ;;
       account <-
         external
           (fun w h => createKernelAccount w h publicClient validator
                         entryPoint kernelVersion)
           (EvCreateKernelAccount publicClient validator entryPoint
              kernelVersion) ;;
       paymaster <-
         external (fun w h => createZeroDevPaymasterClient w h chain rpc)
           (EvCreatePaymasterClient chain rpc) ;;
       client <-
         external
           (fun w h => createKernelAccountClient w h account chain rpc
                         publicClient paymaster)
           (EvCreateKernelAccountClient account chain rpc publicClient
              paymaster) ;;
       len <- lengthOf calls ;;
       let l := match calls with Some l => l | None => [] end in
       if Nat.eqb len 2
       then
         early <- approveStep l publicClient account client ;;
         match early with
         | Some response => ret response
         | None => swapStep l account client
         end
       else singleStep l client)
      (fun err =>
         emit (EvConsoleError "API /api/smartaccount POST error:" err) ;;
         let message := messageOf err in
         ret (NextResponse_json (errorPayload message) (Some 500%N))).

(** What a run gives: the response (or an escaped exception) and the
    trace. *)
Definition outcome (c : Handler Response) (w : World) : JsError + Response :=
  fst (run c w).
Definition trace (c : Handler Response) (w : World) : History :=
  snd (run c w).

(** A request whose body parses to [{ calls: l }]. *)
Definition batchRequest (l : list Call) : Request :=
  {| json := inr {| calls := Some l |} |}.

(** [POST] on a request whose body is [{ calls: l }]. *)
Definition postOutcome (env : ProcessEnv) (w : World) (l : list Call)
    : JsError + Response :=
  outcome (POST env (batchRequest l)) w.
Definition postTrace (env : ProcessEnv) (w : World) (l : list Call)
    : History :=
  trace (POST env (batchRequest l)) w.

(** ** Reading a trace *)

(** The user operations handed to [sendUserOperation], in order. *)
Fixpoint submissions (tr : History) : list UserOperation :=
  match tr with
  | [] => []
  | EvSendUserOperation _ op _ :: rest => op :: submissions rest
  | _ :: rest => submissions rest
  end.

(** What the submissions were answered, in order. *)
Fixpoint submissionResults (tr : History) : list (JsError + Hash) :=
  match tr with
  | [] => []
  | EvSendUserOperation _ _ r :: rest => r :: submissionResults rest
  | _ :: rest => submissionResults rest
  end.

(** What the receipt waits were answered, in order. *)
Fixpoint confirmations (tr : History) : list (JsError + Receipt) :=
  match tr with
  | [] => []
  | EvWaitForUserOperationReceipt _ _ r :: rest => r :: confirmations rest
  | _ :: rest => confirmations rest
  end.

(** What the allowance reads were answered, in order. *)
Fixpoint allowanceReads (tr : History) : list (JsError + N) :=
  match tr with
  | [] => []
  | EvReadAllowance _ _ _ _ r :: rest => r :: allowanceReads rest
  | _ :: rest => allowanceReads rest
  end.

(** Every [catch] of the handlers logs what it caught: a run in which no
    step threw is one without a [console.error]. *)
Definition isConsoleError (ev : Event) : bool :=
  match ev with
  | EvConsoleError _ _ => true
  | _ => false
  end.

Definition noThrow (tr : History) : Prop :=
  existsb isConsoleError tr = false.

Definition configured (env : ProcessEnv) : Prop :=
  present (PRIVATE_KEY env) = true /\ present (ZERODEV_RPC env) = true.

(** What "submitted with value zero" means at an event of a trace. *)
Definition zeroValuedBatch (batch : list SdkCall) : Prop :=
  Forall (fun c => sdk_value c = 0%N) batch.

Definition carriesNoValue (tr : History) (ev : Event) : Prop :=
  match ev with
  | EvEncodeCalls _ batch _ => zeroValuedBatch batch
  | EvSendUserOperation _ (withCalls batch _) _ => zeroValuedBatch batch
  | EvSendUserOperation _ (withCallData callData _) _ =>
      exists account batch,
        In (EvEncodeCalls account batch (inr callData)) tr
        /\ zeroValuedBatch batch
  | _ => True
  end.

(** An allowance other than zero has been read. *)
Definition observedNonZero (past : History) : Prop :=
  exists pc token owner spender a,
    In (EvReadAllowance pc token owner spender (inr a)) past
    /\ a <> 0%N.

(** An allowance of at least [amount] has been read. *)
Definition observedAtLeast (amount : N) (past : History) : Prop :=
  exists pc token owner spender a,
    In (EvReadAllowance pc token owner spender (inr a)) past
    /\ (amount <= a)%N.

(** A submission that is not the first of its run (in the two-call branch:
    the submission of call[1]) comes after a non-zero allowance read. *)
Definition laterSubmissionGuarded (past : History) (ev : Event) : Prop :=
  match ev with
  | EvSendUserOperation _ _ _ => submissions past <> [] -> observedNonZero past
  | _ => True
  end.

(** The same with the guard the invariant of the spec asks for: an
    allowance of at least [amount]. *)
Definition laterSubmissionGuardedBy (amount : N) (past : History)
    (ev : Event) : Prop :=
  match ev with
  | EvSendUserOperation _ _ _ =>
      submissions past <> [] -> observedAtLeast amount past
  | _ => True
  end.

(** ** Stub worlds, for concrete runs *)

(** A chain stub: every construction succeeds; the [n]-th submission
    (counted from 0) is answered [sends n], the receipt wait [receipt] and
    the allowance read [allowance]. *)
Definition stubWorld (sends : nat -> JsError + Hash)
    (receipt : JsError + Receipt) (allowance : JsError + N) : World :=
  {| privateKeyToAccount := fun _ _ => inr {| signer_address := "0xSigner" |};
     createPublicClient := fun _ rpc chain =>
       inr {| pc_transport := rpc; pc_chain := chain |};
     signerToEcdsaValidator := fun _ _ signer _ _ =>
       inr {| validator_address := signer_address signer |};
     createKernelAccount := fun _ _ _ _ _ =>
       inr {| address := "0xSmartAccount" |};
     createZeroDevPaymasterClient := fun _ _ rpc =>
       inr {| pm_transport := rpc |};
     createKernelAccountClient := fun _ account _ _ _ pm =>
       inr {| kc_account := account; kc_paymaster := pm |};
     encodeCalls := fun _ _ batch =>
       inr (String.append "0xe9ae5c53"
              (String.concat "," (map sdk_to batch)));
     sendUserOperation := fun h _ _ => sends (List.length (submissions h));
     waitForUserOperationReceipt := fun _ _ _ => receipt;
     readAllowance := fun _ _ _ _ _ => allowance |}.

Definition hashes (n : nat) : JsError + Hash :=
  match n with
  | O => inr "0xapprove-op"
  | _ => inr "0xswap-op"
  end.

Definition bundlerDown : JsError :=
  newError "bundler rejected the user operation".

Definition testEnv : ProcessEnv :=
  {| PRIVATE_KEY := Some "0xkey"; ZERODEV_RPC := Some "https://rpc.example" |}.

(** What the stub builds from [testEnv]. *)
Definition testPublicClient : PublicClient :=
  {| pc_transport := "https://rpc.example"; pc_chain := sepolia |}.
Definition smartAccount : Address := "0xSmartAccount".

Definition tokenA : Address := "0x6c6Dc940F2E6a27921df887AD96AE586abD8EfD8".
Definition swapContract : Address :=
  "0x718421BB9a6Bb63D4A63295d59c12196c3e221Ed".

(** The batch of the spec's scenario:
    [approve(spender, 100)] on the token, then [swapAToB(100)]. *)
Definition approveCall : Call :=
  {| to := tokenA; data := approve swapContract 100; value := None |}.
Definition swapCall : Call :=
  {| to := swapContract; data := swapAToB 100; value := None |}.
Definition scenario : list Call := [approveCall; swapCall].

(** A call whose sender asks for a native value of 5 to go with it. *)
Definition valuedCall : Call :=
  {| to := swapContract; data := swapAToB 100; value := Some 5%N |}.

Definition receiptOk : JsError + Receipt := inr {| success := true |}.

(** The chain of the scenario, its allowance read giving [a]. *)
Definition chainWithAllowance (a : N) : World :=
  stubWorld hashes receiptOk (inr a).

(** A bundler that rejects every submission. *)
Definition chainBundlerDown : World :=
  stubWorld (fun _ => inl bundlerDown) receiptOk (inr 100%N).

(** A configuration without the signing key. *)
Definition envWithoutKey : ProcessEnv :=
  {| PRIVATE_KEY := None; ZERODEV_RPC := Some "https://rpc.example" |}.

(** ** More ways to read a trace *)

(** The [preVerificationGas] of a submitted operation. *)
Definition gasOf (op : UserOperation) : N :=
  match op with
  | withCallData _ gas => gas
  | withCalls _ gas => gas
  end.

(** The delays taken, in order. *)
Fixpoint settleDelays (tr : History) : list N :=
  match tr with
  | [] => []
  | EvSetTimeout ms :: rest => ms :: settleDelays rest
  | _ :: rest => settleDelays rest
  end.

(** The HTTP status of an outcome, when the handler returned. *)
Definition statusOf (o : JsError + Response) : option N :=
  match o with
  | inr response => Some (status response)
  | inl _ => None
  end.

(** A submission goes out with the fixed gas figure, through a client that
    this run built on the paymaster client it created. *)
Definition sponsoredSubmission (tr : History) (ev : Event) : Prop :=
  match ev with
  | EvSendUserOperation client op _ =>
      gasOf op = 70000%N
      /\ exists account rpc pc paymaster,
           In (EvCreatePaymasterClient sepolia rpc (inr paymaster)) tr
           /\ In (EvCreateKernelAccountClient account sepolia rpc pc
                    paymaster (inr client)) tr
  | _ => True
  end.

(** ** The steps that throw *)

(** The exception an external call was answered with, if it threw. *)
Definition failureOf {A : Type} (r : JsError + A) : option JsError :=
  match r with
  | inl err => Some err
  | inr _ => None
  end.

Definition thrownBy (ev : Event) : option JsError :=
  match ev with
  | EvReqJson r => failureOf r
  | EvPrivateKeyToAccount _ r => failureOf r
  | EvCreatePublicClient _ _ r => failureOf r
  | EvSignerToEcdsaValidator _ _ _ _ r => failureOf r
  | EvCreateKernelAccount _ _ _ _ r => failureOf r
  | EvCreatePaymasterClient _ _ r => failureOf r
  | EvCreateKernelAccountClient _ _ _ _ _ r => failureOf r
  | EvEncodeCalls _ _ r => failureOf r
  | EvSendUserOperation _ _ r => failureOf r
  | EvWaitForUserOperationReceipt _ _ r => failureOf r
  | EvReadAllowance _ _ _ _ r => failureOf r
  | EvSetTimeout _ => None
  | EvConsoleError _ _ => None
  end.

(** Reading the body and building the signer, the clients, the validator
    and the account: what comes before the branch on [calls.length]. *)
Definition isConstruction (ev : Event) : bool :=
  match ev with
  | EvReqJson _ | EvPrivateKeyToAccount _ _ | EvCreatePublicClient _ _ _
  | EvSignerToEcdsaValidator _ _ _ _ _ | EvCreateKernelAccount _ _ _ _ _
  | EvCreatePaymasterClient _ _ _
  | EvCreateKernelAccountClient _ _ _ _ _ _ => true
  | _ => false
  end.

(** What the encodings were answered, in order. *)
Fixpoint encodeResults (tr : History) : list (JsError + Hex) :=
  match tr with
  | [] => []
  | EvEncodeCalls _ _ r :: rest => r :: encodeResults rest
  | _ :: rest => encodeResults rest
  end.

(** The part of [POST] an external call belongs to, read off the call and
    what came before it: construction; in a two-call batch the approve
    step (the first encoding and submission, the receipt wait, the
    allowance read) and the swap step (the encoding and submission that
    come after a submission); the single operation (a submission of
    [calls]). *)
Inductive Stage : Type :=
| Construction
| ApproveStage
| SwapStage
| SingleStage.

Definition stageOf (past : History) (ev : Event) : Stage :=
  match ev with
  | EvEncodeCalls _ _ _ =>
      match submissions past with
      | [] => ApproveStage
      | _ :: _ => SwapStage
      end
  | EvSendUserOperation _ (withCalls _ _) _ => SingleStage
  | EvSendUserOperation _ (withCallData _ _) _ =>
      match submissions past with
      | [] => ApproveStage
      | _ :: _ => SwapStage
      end
  | EvWaitForUserOperationReceipt _ _ _ => ApproveStage
  | EvReadAllowance _ _ _ _ _ => ApproveStage
  | _ => Construction
  end.

(** What is logged and what is answered for an exception of each part. *)
Definition labelFor (stage : Stage) : string :=
  match stage with
  | Construction => "API /api/smartaccount POST error:"
  | ApproveStage => "Approve step failed:"
  | SwapStage => "Swap step failed:"
  | SingleStage => "Single call failed:"
  end.

Definition reportFor (stage : Stage) (err : JsError) : string :=
  match stage with
  | Construction => messageOf err
  | ApproveStage => String.append "Approve failed: " (messageOf err)
  | SwapStage => String.append "Swap failed: " (messageOf err)
  | SingleStage => messageOf err
  end.

(** An external call of [POST] that throws is the last one of the run: the
    exception is logged under the label of its part, nothing was logged
    before and nothing comes after, and the answer [o] is status 500 with
    the report of its part. *)
Definition failureReported (o : JsError + Response) (past : History)
    (ev : Event) (rest : History) : Prop :=
  forall err,
    thrownBy ev = Some err ->
    rest = [EvConsoleError (labelFor (stageOf past ev)) err]
    /\ noThrow past
    /\ o = inr {| body := errorPayload (reportFor (stageOf past ev) err);
                  status := 500 |}.

(** In the batch [c0; c1], a submission that is not the first of the run
    comes after a read of the allowance that goes with the batch (on the
    target of [c0], granted by the account this run built to the target of
    [c1]) that gave something other than zero. *)
Definition laterSubmissionGuardedFor (c0 c1 : Call) (past : History)
    (ev : Event) : Prop :=
  match ev with
  | EvSendUserOperation _ _ _ =>
      submissions past <> [] ->
      exists pc sudo ep kernel account a,
        In (EvCreateKernelAccount pc sudo ep kernel (inr account)) past
        /\ In (EvReadAllowance pc (to c0) (address account) (to c1)
                 (inr a)) past
        /\ a <> 0%N
  | _ => True
  end.

(** ** More stub worlds *)

(** A bundler that accepts the first submission and rejects the next. *)
Definition swapRejected (n : nat) : JsError + Hash :=
  match n with
  | O => inr "0xapprove-op"
  | _ => inl bundlerDown
  end.
Definition chainSwapRejected : World :=
  stubWorld swapRejected receiptOk (inr 100%N).

(** An RPC whose allowance read fails. *)
Definition rpcDown : JsError := newError "rpc unavailable".
Definition chainReadFails : World :=
  stubWorld hashes receiptOk (inl rpcDown).

(** An SDK that cannot build the account. *)
Definition accountDown : JsError := newError "account not deployed".
Definition chainWithoutAccount : World :=
  let w := chainWithAllowance 100 in
  {| privateKeyToAccount := privateKeyToAccount w;
     createPublicClient := createPublicClient w;
     signerToEcdsaValidator := signerToEcdsaValidator w;
     createKernelAccount := fun _ _ _ _ _ => inl accountDown;
     createZeroDevPaymasterClient := createZeroDevPaymasterClient w;
     createKernelAccountClient := createKernelAccountClient w;
     encodeCalls := encodeCalls w;
     sendUserOperation := sendUserOperation w;
     waitForUserOperationReceipt := waitForUserOperationReceipt w;
     readAllowance := readAllowance w |}.

(** A body that is not JSON, and a body without [calls]. *)
Definition syntaxError : JsError :=
  mkError "Unexpected end of JSON input"
    "SyntaxError: Unexpected end of JSON input".
Definition badJson : Request := {| json := inl syntaxError |}.
Definition noCalls : Request := {| json := inr {| calls := None |} |}.

End Route.

(** * The swap client, [src/app/swap/page.tsx] *)

Module SwapPage.

(** ** Data *)

Record Token : Type := {
  address : Address;
  symbol : string;
  icon : string
}.

(** The token list of the page (icons by name). *)
Definition tokens : list Token :=
  [ {| address := "0x6c6Dc940F2E6a27921df887AD96AE586abD8EfD8";
       symbol := "USDC"; icon := "dollar" |};
    {| address := "0x2eC77FDcb56370A3C0aDa518DDe86D820d76743B";
       symbol := "PEPE"; icon := "frog" |} ].

Definition MOCK_SWAP_ADDRESS : Address :=
  "0x718421BB9a6Bb63D4A63295d59c12196c3e221Ed".

(** One entry of the [calls] array the client posts. *)
Record Call : Type := {
  to : Address;
  data : CallData
}.

(** What [fetch] resolves to: [ok], and what [res.json()] then gives; of
    the parsed body the client reads [error] only. *)
Record ResponseJson : Type := { error : option string }.
Record FetchResponse : Type := {
  ok : bool;
  json : JsError + ResponseJson
}.

(** The values of [swapStatus] other than [null]; [failed] is the state
    the source calls "error". *)
Inductive SwapStatus : Type := pending | success | failed.

(** What [handleSwap] reads of the component: the form's amount, the
    selected source token, the smart-account address of the hook and the
    balances and decimals [useReadContracts] has loaded ([None] while
    loading). *)
Record Page : Type := {
  fromAmount : string;
  fromToken : Token;
  accountAddress : option Address;
  contractData : option (list N)
}.

(** ** Events and the world *)

Inductive Event : Type :=
| EvFetch (url : string) (posted : list Call) (r : JsError + FetchResponse)
| EvReadAllowance (token owner spender : Address) (r : JsError + N)
| EvSetTimeout (ms : N)
| EvSetIsSwapping (b : bool)
| EvSetSwapStatus (s : SwapStatus)
| EvConsoleError (label : string) (err : JsError).

Definition History := list Event.

Record World : Type := {
  fetch : History -> string -> list Call -> JsError + FetchResponse;
  readAllowance :
    History -> Address -> Address -> Address -> JsError + N;
  parseUnits : string -> N -> JsError + N
}.

Definition Action := Eff World Event.

(** ** [pollForAllowance] *)

(** The [for] loop, by the number of iterations left ([maxTries - i]). *)
Fixpoint pollLoop (left : nat) (owner spender : Address)
    (expectedAmount : N) (tokenAddress : Address) : Action bool :=
  match left with
  | O => ret false
  | S left' =>
      allowance <-
        external (fun w h => readAllowance w h tokenAddress owner spender)
          (EvReadAllowance tokenAddress owner spender) ;;
      if (expectedAmount <=? allowance)%N
      then ret true
      else
        emit (EvSetTimeout 2000) ;;
        pollLoop left' owner spender expectedAmount tokenAddress
  end.

Definition defaultMaxTries : nat := 20.

Definition pollForAllowance (owner spender : Address) (expectedAmount : N)
    (tokenAddress : Address) (maxTries : nat) : Action bool :=
  pollLoop maxTries owner spender expectedAmount tokenAddress.

(** ** [handleSwap] *)

(** [tokens.findIndex((t) => t.symbol === sym)]; [None] stands for -1. *)
Fixpoint findIndex (sym : string) (ts : list Token) : option nat :=
  match ts with
  | [] => None
  | t :: rest =>
      if String.eqb (symbol t) sym then Some O
      else option_map S (findIndex sym rest)
  end.

(** [Number(data?.[index * 2 + 1] ?? 18)]; at index -1 the lookup is at
    position -1, which no array has. *)
Definition decimalsOf (page : Page) : N :=
  match contractData page, findIndex (symbol (fromToken page)) tokens with
  | Some d, Some i =>
      match nth_error d (i * 2 + 1) with
      | Some n => n
      | None => 18%N
      end
  | _, _ => 18%N
  end.

(** [json.error || fallback]. *)
Definition errorOr (j : ResponseJson) (fallback : string) : string :=
  match error j with
  | Some s => or_else s fallback
  | None => fallback
  end.

Definition endpoint : string := "/api/smartaccount".

Definition handleSwap (page : Page) : Action unit :=
  if negb (truthy (fromAmount page)) || negb (present (accountAddress page))
  then ret tt
  else
    let account :=
      match accountAddress page with Some a => a | None => "" end in
    emit (EvSetIsSwapping true) ;;
    emit (EvSetSwapStatus pending) ;;
    finally
      (catch
         (let decimals := decimalsOf page in
          amountBigInt <-
            pureCall (fun w => parseUnits w (fromAmount page) decimals) ;;
          let approveData := approve MOCK_SWAP_ADDRESS amountBigInt in
          let approveCalls :=
            [ {| to := address (fromToken page); data := approveData |} ] in
          approveRes <-
            external (fun w h => fetch w h endpoint approveCalls)
              (EvFetch endpoint approveCalls) ;;
          approveJson <- settle (json approveRes) ;;
          (if negb (ok approveRes)
           then raise (newError (errorOr approveJson "Approve step failed"))
           else ret tt) ;;
          allowanceOk <-
            pollForAllowance account MOCK_SWAP_ADDRESS amountBigInt
              (address (fromToken page)) defaultMaxTries ;;
          (if negb allowanceOk
           then raise (newError "Allowance did not update in time.")
           else ret tt) ;;
          let swapData := swapAToB amountBigInt in
          let swapCalls :=
            [ {| to := MOCK_SWAP_ADDRESS; data := swapData |} ] in
          swapRes <-
            external (fun w h => fetch w h endpoint swapCalls)
              (EvFetch endpoint swapCalls) ;;
          swapJson <- settle (json swapRes) ;;
          (if negb (ok swapRes)
           then raise (newError (errorOr swapJson "Swap step failed"))
           else ret tt) ;;
          emit (EvSetSwapStatus success))
         (fun err =>
            emit (EvConsoleError "Swap error:" err) ;;
            emit (EvSetSwapStatus failed)))
      (emit (EvSetIsSwapping false)).

Definition outcome (c : Action unit) (w : World) : JsError + unit :=
  fst (run c w).
Definition trace (c : Action unit) (w : World) : History :=
  snd (run c w).

(** ** Reading a trace *)

(** What the allowance reads were answered, in order. *)
Fixpoint allowanceReads (tr : History) : list (JsError + N) :=
  match tr with
  | [] => []
  | EvReadAllowance _ _ _ r :: rest => r :: allowanceReads rest
  | _ :: rest => allowanceReads rest
  end.

(** The delays taken, in order. *)
Fixpoint delays (tr : History) : list N :=
  match tr with
  | [] => []
  | EvSetTimeout ms :: rest => ms :: delays rest
  | _ :: rest => delays rest
  end.

(** The [calls] arrays posted to the endpoint, in order. *)
Fixpoint posts (tr : History) : list (list Call) :=
  match tr with
  | [] => []
  | EvFetch _ posted _ :: rest => posted :: posts rest
  | _ :: rest => posts rest
  end.

Definition isSwapCall (c : Call) : bool :=
  match data c with
  | swapAToB _ => true
  | _ => false
  end.

(** The posts that carry a swap call. *)
Definition swapPosts (tr : History) : list (list Call) :=
  filter (existsb isSwapCall) (posts tr).

(** The value of [swapStatus] after the setters of a trace, from [s0]. *)
Fixpoint swapStatusAfter (s0 : option SwapStatus) (tr : History)
    : option SwapStatus :=
  match tr with
  | [] => s0
  | EvSetSwapStatus s :: rest => swapStatusAfter (Some s) rest
  | _ :: rest => swapStatusAfter s0 rest
  end.

(** An allowance of at least [amount] has been read. *)
Definition observedAtLeast (amount : N) (past : History) : Prop :=
  exists token owner spender a,
    In (EvReadAllowance token owner spender (inr a)) past
    /\ (amount <= a)%N.

(** The traces of the polling loop with [n] tries left, by its result:
    nothing when no try is left; a read that reaches the amount ends the
    loop with [true]; a read that throws ends it with the exception; a read
    below the amount is followed by the 2000 ms delay and the rest of the
    loop. *)
Inductive PollTrace (token owner spender : Address) (expected : N)
    : nat -> JsError + bool -> History -> Prop :=
| poll_exhausted :
    PollTrace token owner spender expected 0 (inr false) []
| poll_reached : forall n a,
    (expected <= a)%N ->
    PollTrace token owner spender expected (S n) (inr true)
      [EvReadAllowance token owner spender (inr a)]
| poll_threw : forall n e,
    PollTrace token owner spender expected (S n) (inl e)
      [EvReadAllowance token owner spender (inl e)]
| poll_again : forall n a r rest,
    (a < expected)%N ->
    PollTrace token owner spender expected n r rest ->
    PollTrace token owner spender expected (S n) r
      (EvReadAllowance token owner spender (inr a)
       :: EvSetTimeout 2000 :: rest).

(** What the loop read and how long it waited, by its result: every read
    but the last is below the amount and is followed by one 2000 ms delay;
    [true] comes with a last read that reaches the amount, an exception
    with a last read that threw, and [false] with as many reads as there
    were tries, all below the amount. *)
Definition pollSummary (expected : N) (n : nat) (r : JsError + bool)
    (delta : History) : Prop :=
  exists lows : list N,
    Forall (fun a => (a < expected)%N) lows
    /\ Forall (fun ms => ms = 2000%N) (delays delta)
    /\ posts delta = []
    /\ match r with
       | inr true =>
           exists a, allowanceReads delta = map inr lows ++ [inr a]
                     /\ (expected <= a)%N
                     /\ List.length (delays delta) = List.length lows
                     /\ List.length lows < n
       | inr false =>
           allowanceReads delta = map inr lows
           /\ List.length (delays delta) = n
           /\ List.length lows = n
       | inl e =>
           allowanceReads delta = map inr lows ++ [inl e]
           /\ List.length (delays delta) = List.length lows
           /\ List.length lows < n
       end.

(** A post that carries a swap call comes after a read of an allowance of
    at least the amount of that call. *)
Definition swapGuarded (past : History) (ev : Event) : Prop :=
  match ev with
  | EvFetch _ posted _ =>
      forall c amount,
        In c posted -> data c = swapAToB amount ->
        observedAtLeast amount past
  | _ => True
  end.

(** ** Stub worlds, for concrete runs *)

(** An endpoint that accepts every post, and a chain whose [n]-th
    allowance read (counted from 0) gives [allowances n]. *)
Definition stubWorld (allowances : nat -> N) : World :=
  {| fetch := fun _ _ _ =>
       inr {| ok := true; json := inr {| error := None |} |};
     readAllowance := fun h _ _ _ =>
       inr (allowances (List.length (allowanceReads h)));
     parseUnits := fun amount decimals =>
       match amount with
       | "100" => inr (100 * 10 ^ decimals)%N
       | _ => inr 0%N
       end |}.

Definition testPage : Page :=
  {| fromAmount := "100";
     fromToken := {| address := "0x6c6Dc940F2E6a27921df887AD96AE586abD8EfD8";
                     symbol := "USDC"; icon := "dollar" |};
     accountAddress := Some "0xSmartAccount";
     contractData := Some [5000%N; 6%N; 7%N; 18%N] |}.

(** A chain on which the approval never shows. *)
Definition neverApproved : World := stubWorld (fun _ => 0%N).

(** ** More ways to read a trace *)

(** The value of [isSwapping] after the setters of a trace, from [b0]. *)
Fixpoint isSwappingAfter (b0 : bool) (tr : History) : bool :=
  match tr with
  | [] => b0
  | EvSetIsSwapping b :: rest => isSwappingAfter b rest
  | _ :: rest => isSwappingAfter b0 rest
  end.

(** The time spent in delays, in milliseconds. *)
Definition totalDelay (tr : History) : N :=
  fold_right N.add 0%N (delays tr).

(** What the posts were answered, in order, and where they went. *)
Fixpoint fetchResults (tr : History) : list (JsError + FetchResponse) :=
  match tr with
  | [] => []
  | EvFetch _ _ r :: rest => r :: fetchResults rest
  | _ :: rest => fetchResults rest
  end.

Fixpoint fetchUrls (tr : History) : list string :=
  match tr with
  | [] => []
  | EvFetch url _ _ :: rest => url :: fetchUrls rest
  | _ :: rest => fetchUrls rest
  end.

(** The two [calls] arrays [handleSwap] builds. *)
Definition approvePost (page : Page) (amount : N) : list Call :=
  [ {| to := address (fromToken page);
       data := approve MOCK_SWAP_ADDRESS amount |} ].
Definition swapPost (amount : N) : list Call :=
  [ {| to := MOCK_SWAP_ADDRESS; data := swapAToB amount |} ].

(** A post, an allowance read or a delay happens while [isSwapping] is
    set. *)
Definition busyWhileWorking (past : History) (ev : Event) : Prop :=
  match ev with
  | EvFetch _ _ _ | EvReadAllowance _ _ _ _ | EvSetTimeout _ =>
      isSwappingAfter false past = true
  | _ => True
  end.

(** A post that carries a swap call goes to the swap contract and comes
    after a read of the allowance that goes with it (on the source token,
    granted by the smart account to the swap contract) of at least the
    amount of the call. *)
Definition swapGuardedFor (page : Page) (past : History) (ev : Event)
    : Prop :=
  match ev with
  | EvFetch _ posted _ =>
      forall c amount,
        In c posted -> data c = swapAToB amount ->
        to c = MOCK_SWAP_ADDRESS
        /\ exists owner a,
             accountAddress page = Some owner
             /\ In (EvReadAllowance (address (fromToken page)) owner
                      MOCK_SWAP_ADDRESS (inr a)) past
             /\ (amount <= a)%N
  | _ => True
  end.

(** ** More stub worlds *)

(** An endpoint whose [n]-th answer (counted from 0) is [answers n], and a
    chain whose [n]-th allowance read is answered [reads n]. *)
Definition stubWorldWith (answers : nat -> JsError + FetchResponse)
    (reads : nat -> JsError + N) : World :=
  {| fetch := fun h _ _ => answers (List.length (posts h));
     readAllowance := fun h _ _ _ => reads (List.length (allowanceReads h));
     parseUnits := fun amount decimals =>
       match amount with
       | "100" => inr (100 * 10 ^ decimals)%N
       | _ => inr 0%N
       end |}.

Definition accepted : JsError + FetchResponse :=
  inr {| ok := true; json := inr {| error := None |} |}.

(** An endpoint that answers every post with a status that is not ok. *)
Definition rejected : JsError + FetchResponse :=
  inr {| ok := false;
         json := inr {| error := Some "bundler rejected the user operation" |} |}.
Definition endpointRejects : World :=
  stubWorldWith (fun _ => rejected) (fun _ => inr 0%N).

(** A chain whose allowance read fails at the third try. *)
Definition rpcDown : JsError := newError "rpc unavailable".
Definition readFailsThird : World :=
  stubWorldWith (fun _ => accepted)
    (fun n => match n with
              | 0 | 1 => inr 0%N
              | _ => inl rpcDown
              end).

(** A chain on which the approval shows at the second read. *)
Definition approvedAtSecondRead : World :=
  stubWorld (fun n => match n with O => 0%N | _ => 100000000%N end).

(** A page with nothing typed in the amount field. *)
Definition emptyPage : Page :=
  {| fromAmount := "";
     fromToken := fromToken testPage;
     accountAddress := accountAddress testPage;
     contractData := contractData testPage |}.

End SwapPage.

(** * The form of the swap page, [src/app/swap/page.tsx]

    The state of [TokenSwapDApp] and what its event handlers do to it: the
    two token selects, the two amount inputs, the direction button, the
    wallet effect, and the balances shown beside the inputs. *)

Module SwapForm.
Import SwapPage.

(** The [useState] cells of the component. *)
Record State : Type := {
  fromToken : Token;
  toToken : Token;
  fromAmount : string;
  toAmount : string;
  isConnected : bool;
  isSwapping : bool;
  swapStatus : option SwapStatus
}.

(** [tokens[i]]; the token list has two entries, so that the fallback of an
    index out of range is never used by the component. *)
Definition undefinedToken : Token :=
  {| address := ""; symbol := ""; icon := "" |}.
Definition tokenAt (i : nat) : Token := nth i tokens undefinedToken.

(** The initial values given to [useState]. *)
Definition initial : State :=
  {| fromToken := tokenAt 0;
     toToken := tokenAt 1;
     fromAmount := "";
     toAmount := "";
     isConnected := false;
     isSwapping := false;
     swapStatus := None |}.

(** [tokens.find((t) => t.symbol === value)]. *)
Definition findToken (value : string) : option Token :=
  find (fun t => String.eqb (symbol t) value) tokens.

(** [onValueChange] of the "From" select. *)
Definition selectFrom (value : string) (s : State) : State :=
  match findToken value with
  | Some token =>
      {| fromToken := token; toToken := toToken s;
         fromAmount := fromAmount s; toAmount := toAmount s;
         isConnected := isConnected s; isSwapping := isSwapping s;
         swapStatus := swapStatus s |}
  | None => s
  end.

(** [onValueChange] of the "To" select. *)
Definition selectTo (value : string) (s : State) : State :=
  match findToken value with
  | Some token =>
      {| fromToken := fromToken s; toToken := token;
         fromAmount := fromAmount s; toAmount := toAmount s;
         isConnected := isConnected s; isSwapping := isSwapping s;
         swapStatus := swapStatus s |}
  | None => s
  end.

(** [onChange] of the two amount inputs. *)
Definition changeFromAmount (value : string) (s : State) : State :=
  {| fromToken := fromToken s; toToken := toToken s;
     fromAmount := value; toAmount := toAmount s;
     isConnected := isConnected s; isSwapping := isSwapping s;
     swapStatus := swapStatus s |}.

Definition changeToAmount (value : string) (s : State) : State :=
  {| fromToken := fromToken s; toToken := toToken s;
     fromAmount := fromAmount s; toAmount := value;
     isConnected := isConnected s; isSwapping := isSwapping s;
     swapStatus := swapStatus s |}.

(** [onClick] of the direction button: the four setters are called with
    the values of the current render. *)
Definition flipDirection (s : State) : State :=
  let temp := fromToken s in
  {| fromToken := toToken s; toToken := temp;
     fromAmount := toAmount s; toAmount := fromAmount s;
     isConnected := isConnected s; isSwapping := isSwapping s;
     swapStatus := swapStatus s |}.

(** The effect on [primaryWallet]: [if (primaryWallet) setIsConnected(true)]. *)
Definition walletEffect (primaryWallet : bool) (s : State) : State :=
  if primaryWallet
  then {| fromToken := fromToken s; toToken := toToken s;
          fromAmount := fromAmount s; toAmount := toAmount s;
          isConnected := true; isSwapping := isSwapping s;
          swapStatus := swapStatus s |}
  else s.

(** The setters [handleSwap] called, applied to the state. *)
Definition afterSwap (tr : SwapPage.History) (s : State) : State :=
  {| fromToken := fromToken s; toToken := toToken s;
     fromAmount := fromAmount s; toAmount := toAmount s;
     isConnected := isConnected s;
     isSwapping := isSwappingAfter (isSwapping s) tr;
     swapStatus := swapStatusAfter (swapStatus s) tr |}.

(** [disabled] of the swap button:
    [!isConnected || !fromAmount || isSwapping]. *)
Definition swapDisabled (s : State) : bool :=
  negb (isConnected s) || negb (truthy (fromAmount s)) || isSwapping s.

(** While [handleSwap] posts, reads or waits, the button is disabled in
    the state its setters have produced so far. *)
Definition disabledWhileWorking (s : State) (past : SwapPage.History)
    (ev : SwapPage.Event) : Prop :=
  match ev with
  | EvFetch _ _ _ | EvReadAllowance _ _ _ _ | EvSetTimeout _ =>
      swapDisabled (afterSwap past s) = true
  | _ => True
  end.

(** What [handleSwap] reads of the component, [accountAddress] and [data]
    coming from the two hooks. *)
Definition pageOf (s : State) (account : option Address)
    (data : option (list N)) : Page :=
  {| SwapPage.fromAmount := fromAmount s;
     SwapPage.fromToken := fromToken s;
     accountAddress := account;
     contractData := data |}.

(** What the user and the environment can do to the form. *)
Inductive Action : Type :=
| SelectFrom (value : string)
| SelectTo (value : string)
| ChangeFromAmount (value : string)
| ChangeToAmount (value : string)
| FlipDirection
| WalletChanged (primaryWallet : bool)
| Swapped (tr : SwapPage.History).

Definition act (s : State) (a : Action) : State :=
  match a with
  | SelectFrom v => selectFrom v s
  | SelectTo v => selectTo v s
  | ChangeFromAmount v => changeFromAmount v s
  | ChangeToAmount v => changeToAmount v s
  | FlipDirection => flipDirection s
  | WalletChanged p => walletEffect p s
  | Swapped tr => afterSwap tr s
  end.

(** The state after a sequence of actions on the freshly mounted form. *)
Definition after (actions : list Action) : State :=
  fold_left act actions initial.

(** ** The balances *)

Section Balances.

(** [formatUnits] of viem: a pure function of the raw balance and the
    decimals. *)
Variable formatUnits : N -> N -> string.

(** An entry of [TokenBalances]: the token and its [formatted] balance. *)
Record TokenBalance : Type := {
  token : Token;
  formatted : string
}.

(** The body of [tokens.map((token, i) => ...)]. *)
Definition balanceOf (data : option (list N)) (i : nat) (t : Token)
    : TokenBalance :=
  let balanceRaw :=
    match data with Some d => nth_error d (i * 2) | None => None end in
  let decimals :=
    match data with Some d => nth_error d (i * 2 + 1) | None => None end in
  {| token := t;
     formatted :=
       match balanceRaw, decimals with
       | Some b, Some d => formatUnits b d
       | _, _ => "-"
       end |}.

Fixpoint mapFrom (i : nat) (data : option (list N)) (ts : list Token)
    : list TokenBalance :=
  match ts with
  | [] => []
  | t :: rest => balanceOf data i t :: mapFrom (S i) data rest
  end.

Definition TokenBalances (data : option (list N)) : list TokenBalance :=
  mapFrom 0 data tokens.

(** [TokenBalances.find((t) => t.symbol === sym)?.formatted ?? "-"]: the
    balance shown under an input. *)
Definition shownBalance (data : option (list N)) (sym : string) : string :=
  match find (fun b => String.eqb (symbol (token b)) sym)
             (TokenBalances data) with
  | Some b => formatted b
  | None => "-"
  end.

End Balances.

(** A stand-in for [formatUnits] in concrete runs: the raw balance and the
    decimals, in decimal digits, side by side. *)
Definition plainUnits (balance decimals : N) : string :=
  String.append (NilEmpty.string_of_uint (N.to_uint balance))
    (String.append "e-" (NilEmpty.string_of_uint (N.to_uint decimals))).

(** The data of a wallet holding 5000 and 7 raw units, with 6 and 18
    decimals. *)
Definition loadedData : list N := [5000%N; 6%N; 7%N; 18%N].

End SwapForm.

(** * From the client to the endpoint

    What a post of the client is on the endpoint's side: [JSON.stringify]
    writes [to] and [data] of each call and [req.json()] reads them back;
    the client never writes a [value]. *)

Module Wire.

Definition received (c : SwapPage.Call) : Route.Call :=
  {| Route.to := SwapPage.to c;
     Route.data := SwapPage.data c;
     Route.value := None |}.

Definition receivedBatch (posted : list SwapPage.Call) : list Route.Call :=
  map received posted.

End Wire.

(** * Properties of the endpoint *)

Module RouteSpec.
Import Route.

(** Case analysis on one external answer (or one branch) of a run. *)
Ltac step :=
  match goal with
  | |- context [match ?x with inl _ => _ | inr _ => _ end] =>
      let E := fresh "E" in destruct x eqn:E; simpl
  | |- context [match ?x with Some _ => _ | None => _ end] =>
      let E := fresh "E" in destruct x eqn:E; simpl
  | |- context [if ?x then _ else _] =>
      let E := fresh "E" in destruct x eqn:E; simpl
  end.

(** The shapes a request can have: the body does not parse, it has no
    [calls], or [calls] has 0, 1, 2 or more entries. *)
Ltac shape req :=
  let Ejson := fresh "Ejson" in
  destruct (json req) as [?e | [[[|?c0 [|?c1 [|?c2 ?l]]]|]]] eqn:Ejson.

(** Every path of a handler, one goal per path: the run is named, its
    defining equation is split along the answers of the world, and each
    path ends with the run replaced by its outcome and trace. *)
Ltac paths env :=
  unfold postTrace, postOutcome, trace, outcome;
  match goal with
  | |- context [run ?c ?w] =>
      let out := fresh "out" in
      let Hrun := fresh "Hrun" in
      remember (run c w) as out eqn:Hrun; revert Hrun
  end;
  unfold run, GET, POST, batchRequest;
  destruct (present (PRIVATE_KEY env)), (present (ZERODEV_RPC env)); simpl;
  unfold approveStep, swapStep, singleStep, lengthOf, external, emit; simpl;
  repeat match goal with E : json _ = _ |- _ => rewrite E; simpl end;
  repeat step;
  intros ->; simpl.

(** Membership in an explicit trace, one case per event. *)
Ltac members H :=
  simpl in H;
  repeat (destruct H as [H | H]; [try discriminate H | ]);
  try contradiction.

(** Pick the event of an explicit trace that fits. *)
Ltac pick := simpl; repeat (first [left; reflexivity | right]).

(** C4.  When the private signing key or the RPC endpoint URL is missing
    from the process configuration (or is the empty string), both [GET]
    and [POST] answer status 500 with an error body, and the trace is
    empty: no account is built, nothing is read from or sent to the
    network. *)
Theorem missing_configuration_is_a_500 :
  forall (env : ProcessEnv) (req : Request) (w : World),
    present (PRIVATE_KEY env) = false \/ present (ZERODEV_RPC env) = false ->
    run (GET env) w =
      (inr {| body := errorPayload "Missing env vars"; status := 500 |}, [])
    /\ run (POST env req) w =
      (inr {| body := errorPayload "Missing env vars"; status := 500 |}, []).
Proof.
  intros env req w H.
  unfold run, GET, POST.
  destruct H as [H | H]; rewrite H; simpl.
  - split; reflexivity.
  - rewrite orb_true_r. split; reflexivity.
Qed.

Lemma missing_configuration_is_a_500_witness :
  (present (PRIVATE_KEY envWithoutKey) = false
   \/ present (ZERODEV_RPC envWithoutKey) = false)
  /\ run (GET envWithoutKey) (chainWithAllowance 100) =
       (inr {| body := errorPayload "Missing env vars"; status := 500 |}, [])
  /\ run (POST envWithoutKey (batchRequest scenario))
         (chainWithAllowance 100) =
       (inr {| body := errorPayload "Missing env vars"; status := 500 |}, []).
Proof.
  split.
  - left. reflexivity.
  - apply (missing_configuration_is_a_500 envWithoutKey
             (batchRequest scenario) (chainWithAllowance 100)).
    left. reflexivity.
Defined.

(** Membership in an explicit trace of an event that threw: one case per
    event that was answered with an exception. *)
Ltac thrown H Ht :=
  simpl in H;
  repeat (destruct H as [H | H];
          [ subst; simpl in Ht; try discriminate Ht | ]);
  try contradiction.

(** C8.  Whatever the request, [GET] and [POST] return a response and no
    exception leaves them: [GET] answers [{address}] with status 200 or
    [{error}] with status 500; [POST] answers [{userOpHash}] with status
    200 or [{error}] with status 400 or 500.  And whatever step throws, its
    exception is converted: when an external call of [GET] is answered with
    an exception, [GET] logs it and answers status 500 with [{error}]
    holding its rendering; when an external call of [POST] is answered with
    an exception, [POST] logs it and answers status 500 with [{error}]
    holding its message, bare or after "Approve failed: " or
    "Swap failed: "; when the body has no [calls], so that reading
    [calls.length] throws, [POST] answers status 500 with [{error}] as
    well. *)
Theorem every_outcome_is_a_response :
  forall (env : ProcessEnv) (req : Request) (w : World),
    ((exists a, outcome (GET env) w =
                  inr {| body := addressPayload a; status := 200 |})
     \/ (exists msg, outcome (GET env) w =
                  inr {| body := errorPayload msg; status := 500 |}))
    /\
    ((exists h, outcome (POST env req) w =
                  inr {| body := userOpHashPayload h; status := 200 |})
     \/ (exists msg st, outcome (POST env req) w =
                  inr {| body := errorPayload msg; status := st |}
                  /\ (st = 400 \/ st = 500)%N))
    /\
    (forall (ev : Event) (err : JsError),
       In ev (trace (GET env) w) ->
       thrownBy ev = Some err ->
       In (EvConsoleError "API /api/smartaccount GET error:" err)
          (trace (GET env) w)
       /\ outcome (GET env) w =
            inr {| body := errorPayload (rendering err); status := 500 |})
    /\
    (forall (ev : Event) (err : JsError),
       In ev (trace (POST env req) w) ->
       thrownBy ev = Some err ->
       exists label text,
         In (EvConsoleError label err) (trace (POST env req) w)
         /\ outcome (POST env req) w =
              inr {| body := errorPayload text; status := 500 |}
         /\ (text = messageOf err
             \/ text = String.append "Approve failed: " (messageOf err)
             \/ text = String.append "Swap failed: " (messageOf err)))
    /\
    (forall body : Body,
       json req = inr body ->
       calls body = None ->
       configured env ->
       exists text,
         outcome (POST env req) w =
           inr {| body := errorPayload text; status := 500 |}).
Proof.
  intros env req w.
  split; [ | split; [ | split; [ | split]]].
  - paths env;
      first [ left; eexists; reflexivity | right; eexists; reflexivity ].
  - shape req; paths env;
      first [ left; eexists; reflexivity
            | right; do 2 eexists; split; [reflexivity | tauto] ].
  - intros ev err.
    paths env; intros H Ht; thrown H Ht.
    all: injection Ht as <-.
    all: split; [pick | reflexivity].
  - intros ev err.
    shape req; paths env; intros H Ht; thrown H Ht.
    all: injection Ht as <-.
    all: do 2 eexists; split; [pick | split; [reflexivity | ]].
    all: first [ left; reflexivity
               | right; left; reflexivity
               | right; right; reflexivity ].
  - intros body Hjson Hcalls. unfold configured.
    shape req; try discriminate Hjson; injection Hjson as <-;
      try discriminate Hcalls.
    paths env; intros [Hk Hr]; try discriminate Hk; try discriminate Hr.
    all: eexists; reflexivity.
Qed.

Lemma every_outcome_is_a_response_witness :
  (In (EvCreateKernelAccount testPublicClient
         {| validator_address := "0xSigner" |} (getEntryPoint "0.7")
         KERNEL_V3_1 (inl accountDown))
      (trace (POST testEnv (batchRequest scenario)) chainWithoutAccount)
   /\ thrownBy
        (EvCreateKernelAccount testPublicClient
           {| validator_address := "0xSigner" |} (getEntryPoint "0.7")
           KERNEL_V3_1 (inl accountDown)) = Some accountDown)
  /\ exists label text,
       In (EvConsoleError label accountDown)
          (trace (POST testEnv (batchRequest scenario)) chainWithoutAccount)
       /\ outcome (POST testEnv (batchRequest scenario)) chainWithoutAccount =
            inr {| body := errorPayload text; status := 500 |}.
Proof.
  assert (H : In (EvCreateKernelAccount testPublicClient
                    {| validator_address := "0xSigner" |}
                    (getEntryPoint "0.7") KERNEL_V3_1 (inl accountDown))
                 (trace (POST testEnv (batchRequest scenario))
                    chainWithoutAccount))
    by (vm_compute; repeat (first [left; reflexivity | right])).
  assert (Ht : thrownBy
                 (EvCreateKernelAccount testPublicClient
                    {| validator_address := "0xSigner" |}
                    (getEntryPoint "0.7") KERNEL_V3_1 (inl accountDown)) =
               Some accountDown)
    by reflexivity.
  split; [split; [exact H | exact Ht] | ].
  destruct (every_outcome_is_a_response testEnv (batchRequest scenario)
              chainWithoutAccount)
    as (_ & _ & _ & Hpost & _).
  destruct (Hpost _ accountDown H Ht) as (label & text & Hlog & Hout & _).
  exists label, text. split; [exact Hlog | exact Hout].
Defined.

(** C1.  In a two-call batch, when the allowance read that follows the
    confirmation of call[0] gives zero, the response is
    [{error: "Allowance not updated"}] with status 400, the read is the last
    thing the handler does, and the only submission of the run is that of
    call[0]: call[1] is neither encoded nor submitted. *)
Theorem zero_allowance_stops_the_batch :
  forall (env : ProcessEnv) (w : World) (c0 c1 : Call)
         (pc : PublicClient) (token owner spender : Address),
    In (EvReadAllowance pc token owner spender (inr 0%N))
       (postTrace env w [c0; c1]) ->
    postOutcome env w [c0; c1] =
      inr {| body := errorPayload "Allowance not updated"; status := 400 |}
    /\ List.length (submissions (postTrace env w [c0; c1])) = 1
    /\ exists pre account callData,
         postTrace env w [c0; c1] =
           pre ++ [EvReadAllowance pc token owner spender (inr 0%N)]
         /\ In (EvEncodeCalls account [zeroValued c0] (inr callData)) pre
         /\ submissions (postTrace env w [c0; c1]) =
              [withCallData callData 70000].
Proof.
  intros env w c0 c1 pc token owner spender.
  paths env; intros H; members H.
  all: injection H as -> -> -> -> ->.
  all: try match goal with
           | E : (0 =? 0)%N = false |- _ => discriminate E
           end.
  all: split; [reflexivity | split; [reflexivity | ]].
  all: eexists (_ :: _ :: _ :: _ :: _ :: _ :: _ :: _ :: _ :: _ :: _ :: []),
         _, _;
    split; [reflexivity | split; [ simpl; tauto | reflexivity ] ].
Qed.

Lemma zero_allowance_stops_the_batch_witness :
  In (EvReadAllowance testPublicClient tokenA smartAccount swapContract
        (inr 0%N))
     (postTrace testEnv (chainWithAllowance 0) scenario)
  /\ postOutcome testEnv (chainWithAllowance 0) scenario =
       inr {| body := errorPayload "Allowance not updated"; status := 400 |}
  /\ List.length
       (submissions (postTrace testEnv (chainWithAllowance 0) scenario)) = 1.
Proof.
  assert (H : In (EvReadAllowance testPublicClient tokenA smartAccount
                    swapContract (inr 0%N))
                 (postTrace testEnv (chainWithAllowance 0) scenario))
    by (vm_compute; repeat (first [left; reflexivity | right])).
  split; [exact H | ].
  destruct (zero_allowance_stops_the_batch testEnv (chainWithAllowance 0)
              approveCall swapCall testPublicClient tokenA smartAccount
              swapContract H)
    as [Hout [Hcount _]].
  split; assumption.
Defined.

(** C7.  In a two-call batch, when the submission of call[0] throws, or the
    wait for its receipt throws, the response has status 500 and the error
    text ["Approve failed: "] followed by the exception's message; the run
    has exactly one submission, that of call[0]: nothing is retried and
    call[1] is never submitted. *)
Theorem approve_failure_aborts_before_swap :
  forall (env : ProcessEnv) (w : World) (c0 c1 : Call) (err : JsError),
    hd_error (submissionResults (postTrace env w [c0; c1])) = Some (inl err)
    \/ In (inl err) (confirmations (postTrace env w [c0; c1])) ->
    postOutcome env w [c0; c1] =
      inr {| body := errorPayload
                       (String.append "Approve failed: " (messageOf err));
             status := 500 |}
    /\ exists account callData,
         In (EvEncodeCalls account [zeroValued c0] (inr callData))
            (postTrace env w [c0; c1])
         /\ submissions (postTrace env w [c0; c1]) =
              [withCallData callData 70000].
Proof.
  intros env w c0 c1 err.
  paths env; intros [H | H]; try discriminate H; members H.
  all: injection H as ->.
  all: split; [reflexivity | ].
  all: do 2 eexists; split; [ simpl; tauto | reflexivity ].
Qed.

Lemma approve_failure_aborts_before_swap_witness :
  (hd_error (submissionResults (postTrace testEnv chainBundlerDown scenario))
     = Some (inl bundlerDown)
   \/ In (inl bundlerDown)
         (confirmations (postTrace testEnv chainBundlerDown scenario)))
  /\ postOutcome testEnv chainBundlerDown scenario =
       inr {| body := errorPayload
                "Approve failed: bundler rejected the user operation";
              status := 500 |}.
Proof.
  assert (H : hd_error (submissionResults
                          (postTrace testEnv chainBundlerDown scenario))
                = Some (inl bundlerDown)
              \/ In (inl bundlerDown)
                    (confirmations
                       (postTrace testEnv chainBundlerDown scenario)))
    by (left; vm_compute; reflexivity).
  split; [exact H | ].
  exact (proj1 (approve_failure_aborts_before_swap testEnv chainBundlerDown
                  approveCall swapCall bundlerDown H)).
Defined.





(** C9.  In a two-call batch whose first submission returns a handle, the
    next thing the handler does is wait for the receipt of that handle.
    When the receipt arrives, the two following events are the 30000 ms
    settle delay and then the allowance read, addressed to call[0]'s target,
    with the address of the account built for this request as owner and
    call[1]'s target as spender.  That read is the only allowance read of
    the run; when the receipt wait throws, there is none. *)
Theorem read_follows_receipt_and_settle_delay :
  forall (env : ProcessEnv) (w : World) (c0 c1 : Call) (hash0 : Hash),
    hd_error (submissionResults (postTrace env w [c0; c1])) =
      Some (inr hash0) ->
    exists pre pc sudo ep kernel account client callData confirmation rest,
      postTrace env w [c0; c1] =
        pre ++
        EvSendUserOperation client (withCallData callData 70000) (inr hash0)
        :: EvWaitForUserOperationReceipt client hash0 confirmation
        :: rest
      /\ In (EvCreateKernelAccount pc sudo ep kernel (inr account)) pre
      /\ In (EvEncodeCalls account [zeroValued c0] (inr callData)) pre
      /\ submissions pre = []
      /\ allowanceReads pre = []
      /\ match confirmation with
         | inl _ => allowanceReads rest = []
         | inr _ =>
             exists answer rest',
               rest = EvSetTimeout 30000
                      :: EvReadAllowance pc (to c0) (address account)
                           (to c1) answer
                      :: rest'
               /\ allowanceReads rest' = []
         end.
Proof.
  intros env w c0 c1 hash0.
  paths env; intros H; try discriminate H.
  all: injection H as ->.
  all: eexists (_ :: _ :: _ :: _ :: _ :: _ :: _ :: _ :: []).
  all: do 9 eexists.
  all: split; [reflexivity | ].
  all: split; [simpl; tauto | ].
  all: split; [simpl; tauto | ].
  all: split; [reflexivity | ].
  all: split; [reflexivity | ].
  all: try reflexivity.
  all: do 2 eexists; split; reflexivity.
Qed.

Lemma read_follows_receipt_and_settle_delay_witness :
  hd_error (submissionResults
              (postTrace testEnv (chainWithAllowance 100) scenario)) =
    Some (inr "0xapprove-op")
  /\ exists pre client callData confirmation rest,
       postTrace testEnv (chainWithAllowance 100) scenario =
         pre ++
         EvSendUserOperation client (withCallData callData 70000)
           (inr "0xapprove-op")
         :: EvWaitForUserOperationReceipt client "0xapprove-op" confirmation
         :: rest.
Proof.
  assert (H : hd_error (submissionResults
                          (postTrace testEnv (chainWithAllowance 100)
                             scenario)) =
              Some (inr "0xapprove-op"))
    by (vm_compute; reflexivity).
  split; [exact H | ].
  destruct (read_follows_receipt_and_settle_delay testEnv
              (chainWithAllowance 100) approveCall swapCall "0xapprove-op" H)
    as (pre & pc & sudo & ep & kernel & account & client & callData
        & confirmation & rest & Htr & _).
  exists pre, client, callData, confirmation, rest. exact Htr.
Defined.

Lemma zeroValued_batch :
  forall l : list Call, zeroValuedBatch (map zeroValued l).
Proof.
  induction l as [|c l IH]; simpl; constructor; [reflexivity | exact IH].
Qed.

(** C10.  Whatever the request, and whatever [value] its calls carry, every
    call object the handler gives to the SDK has value 0: those it encodes,
    those it submits as [calls], and every call data it submits is one it
    obtained by encoding such zero-valued calls. *)
Theorem every_submitted_call_has_zero_value :
  forall (env : ProcessEnv) (req : Request) (w : World),
    Forall (carriesNoValue (trace (POST env req) w)) (trace (POST env req) w).
Proof.
  intros env req w.
  shape req; paths env.
  all: repeat (apply Forall_cons; [ simpl | ]); try apply Forall_nil.
  all: try exact I; try reflexivity; try apply zeroValued_batch.
  all: do 2 eexists; split; [ pick | apply (zeroValued_batch [_]) ].
Qed.

(** A [value] in the request does not reach the chain: the call is
    submitted with value 0. *)
Example supplied_value_is_dropped :
  submissions (postTrace testEnv (chainWithAllowance 100) [valuedCall]) =
    [ withCalls
        [ {| sdk_to := swapContract; sdk_value := 0;
             sdk_data := swapAToB 100 |} ]
        70000 ].
Proof. vm_compute. reflexivity. Qed.

(** The endpoint half of the allowance guard: in every run of [POST], a
    submission that is not the first of the run comes after an allowance
    read that gave something other than zero. *)
Lemma POST_submits_again_only_after_nonzero_allowance :
  forall (env : ProcessEnv) (req : Request) (w : World),
    always laterSubmissionGuarded (trace (POST env req) w).
Proof.
  intros env req w. unfold always.
  shape req; paths env.
  all: repeat split; try exact I.
  all: intros Hlater; try (exfalso; apply Hlater; reflexivity).
  all: do 5 eexists; split; [ pick | apply N.eqb_neq; eassumption ].
Qed.

(** The endpoint half, for the batch at hand: in a run of [POST] on
    [c0; c1], a submission that is not the first comes after a read, on the
    target of [c0], of the allowance the account of the run grants the
    target of [c1], and that read gave something other than zero. *)
Lemma POST_submits_call1_only_after_its_allowance :
  forall (env : ProcessEnv) (w : World) (c0 c1 : Call),
    always (laterSubmissionGuardedFor c0 c1) (postTrace env w [c0; c1]).
Proof.
  intros env w c0 c1. unfold always.
  paths env.
  all: repeat split; try exact I.
  all: intros Hlater; try (exfalso; apply Hlater; reflexivity).
  all: do 6 eexists; split; [ pick | split; [ pick | ] ].
  all: apply N.eqb_neq; eassumption.
Qed.

End RouteSpec.

(** * Properties of the swap client *)

Module SwapPageSpec.
Import SwapPage.

(** ** The polling loop *)

(** From any history, the loop with [n] tries left extends the history by
    one of its traces and returns accordingly. *)
Lemma pollLoop_trace :
  forall (owner spender : Address) (expected : N) (token : Address)
         (w : World) (n : nat) (h : History),
    exists r delta,
      pollLoop n owner spender expected token w h = (r, h ++ delta)
      /\ PollTrace token owner spender expected n r delta.
Proof.
  intros owner spender expected token w.
  induction n as [|n IH]; intros h.
  - exists (inr false), []. split.
    + simpl. rewrite app_nil_r. reflexivity.
    + constructor.
  - simpl. unfold external.
    destruct (readAllowance w h token owner spender) as [e | a] eqn:Eread.
    + exists (inl e), [EvReadAllowance token owner spender (inl e)].
      split; [reflexivity | constructor].
    + destruct (expected <=? a)%N eqn:Ecmp.
      * exists (inr true), [EvReadAllowance token owner spender (inr a)].
        split; [reflexivity | ].
        constructor. apply N.leb_le. exact Ecmp.
      * simpl.
        destruct (IH ((h ++ [EvReadAllowance token owner spender (inr a)])
                        ++ [EvSetTimeout 2000]))
          as (r & delta & Hrun & Htrace).
        exists r,
          (EvReadAllowance token owner spender (inr a)
           :: EvSetTimeout 2000 :: delta).
        split.
        -- unfold emit. rewrite Hrun. rewrite <- !app_assoc. reflexivity.
        -- constructor; [ apply N.leb_gt; exact Ecmp | exact Htrace ].
Qed.

Lemma PollTrace_reads_bounded :
  forall token owner spender expected n r delta,
    PollTrace token owner spender expected n r delta ->
    List.length (allowanceReads delta) <= n.
Proof.
  intros token owner spender expected n r delta H.
  induction H; simpl; lia.
Qed.


Lemma PollTrace_summary :
  forall token owner spender expected n r delta,
    PollTrace token owner spender expected n r delta ->
    pollSummary expected n r delta.
Proof.
  intros token owner spender expected n r delta H.
  induction H as [ | n a Ha | n e | n a r rest Ha H IH ].
  - exists []. simpl. do 2 (split; [constructor | ]).
    repeat split; reflexivity.
  - exists []. simpl. do 3 (split; [constructor | ]).
    exists a. simpl. split; [reflexivity | ].
    split; [exact Ha | ]. split; [reflexivity | lia].
  - exists []. simpl. do 3 (split; [constructor | ]).
    split; [reflexivity | ]. split; [reflexivity | lia].
  - destruct IH as (lows & Hlows & Hdelays & Hposts & Hr).
    exists (a :: lows). simpl.
    split; [constructor; assumption | ].
    split; [constructor; [reflexivity | assumption] | ].
    split; [assumption | ].
    destruct r as [e | [|]].
    + destruct Hr as (Hreads & Hlen & Hn).
      rewrite Hreads. split; [reflexivity | ]. split; lia.
    + destruct Hr as (a' & Hreads & Ha' & Hlen & Hn).
      exists a'. rewrite Hreads. split; [reflexivity | ].
      split; [exact Ha' | ]. split; lia.
    + destruct Hr as (Hreads & Hlen & Hn).
      rewrite Hreads. split; [reflexivity | ]. split; lia.
Qed.

Lemma allowanceReads_app :
  forall a b : History,
    allowanceReads (a ++ b) = allowanceReads a ++ allowanceReads b.
Proof.
  induction a as [|ev a IH]; intros b; simpl; [reflexivity | ].
  destruct ev; simpl; rewrite IH; reflexivity.
Qed.

Lemma posts_app :
  forall a b : History, posts (a ++ b) = posts a ++ posts b.
Proof.
  induction a as [|ev a IH]; intros b; simpl; [reflexivity | ].
  destruct ev; simpl; rewrite IH; reflexivity.
Qed.

Lemma swapStatusAfter_app :
  forall (a b : History) (s0 : option SwapStatus),
    swapStatusAfter s0 (a ++ b) = swapStatusAfter (swapStatusAfter s0 a) b.
Proof.
  induction a as [|ev a IH]; intros b s0; simpl; [reflexivity | ].
  destruct ev; simpl; rewrite IH; reflexivity.
Qed.

Lemma PollTrace_keeps_status :
  forall token owner spender expected n r delta s0,
    PollTrace token owner spender expected n r delta ->
    swapStatusAfter s0 delta = s0.
Proof.
  intros token owner spender expected n r delta s0 H.
  induction H; simpl; auto.
Qed.

(** From here on the loop is used through [pollLoop_trace], never
    unrolled. *)
#[local] Opaque pollLoop.

Ltac step :=
  match goal with
  | |- context [match ?x with inl _ => _ | inr _ => _ end] =>
      let E := fresh "E" in destruct x eqn:E; simpl
  | |- context [if ?x then _ else _] =>
      let E := fresh "E" in destruct x eqn:E; simpl
  | |- context [pollLoop ?n ?o ?s ?e ?t ?w ?h] =>
      let r := fresh "r" in
      let delta := fresh "delta" in
      let Hrun := fresh "Hpoll" in
      let Htrace := fresh "Htrace" in
      destruct (pollLoop_trace o s e t w n h) as (r & delta & Hrun & Htrace);
      rewrite Hrun; clear Hrun; simpl;
      destruct r as [? | [|]]; simpl
  end.

Ltac paths page :=
  unfold trace, outcome;
  match goal with
  | |- context [run ?c ?w] =>
      let out := fresh "out" in
      let Hrun := fresh "Hrun" in
      remember (run c w) as out eqn:Hrun; revert Hrun
  end;
  unfold run, handleSwap;
  destruct (truthy (fromAmount page)), (present (accountAddress page));
  simpl;
  unfold finally, pureCall, external, emit, settle, pollForAllowance; simpl;
  repeat step;
  intros ->; simpl.


Lemma everyLater_app :
  forall (R : History -> Event -> Prop) (a b past : History),
    everyLater R past (a ++ b) <->
    everyLater R past a /\ everyLater R (past ++ a) b.
Proof.
  intros R a b. induction a as [|ev a IH]; intros past; simpl.
  - rewrite app_nil_r. tauto.
  - rewrite IH. rewrite <- app_assoc. simpl. tauto.
Qed.

Lemma PollTrace_posts_nothing :
  forall token owner spender expected n r delta past,
    PollTrace token owner spender expected n r delta ->
    everyLater swapGuarded past delta.
Proof.
  intros token owner spender expected n r delta past H. revert past.
  induction H; intros past; simpl; auto.
Qed.

Lemma PollTrace_true_observed :
  forall token owner spender expected n delta,
    PollTrace token owner spender expected n (inr true) delta ->
    observedAtLeast expected delta.
Proof.
  intros token owner spender expected n delta H.
  remember (inr true) as r eqn:Hr.
  induction H as [ | n a Ha | n e | n a r rest Ha H IH ]; try discriminate Hr.
  - exists token, owner, spender, a. split; [left; reflexivity | exact Ha].
  - destruct (IH Hr) as (t & o & s & a' & Hin & Hle).
    exists t, o, s, a'. split; [right; right; exact Hin | exact Hle].
Qed.

Lemma observedAtLeast_cons :
  forall amount (ev : Event) (past : History),
    observedAtLeast amount past -> observedAtLeast amount (ev :: past).
Proof.
  intros amount ev past (t & o & s & x & Hin & Hle).
  exists t, o, s, x. split; [right; exact Hin | exact Hle].
Qed.

(** The client half of the allowance guard: in every run of [handleSwap],
    a post that carries [swapAToB(amount)] comes after a read of an
    allowance of at least [amount]. *)
Lemma handleSwap_posts_swap_after_allowance :
  forall (w : World) (page : Page),
    always swapGuarded (trace (handleSwap page) w).
Proof.
  intros w page. unfold always.
  paths page.
  all: rewrite <- ?app_assoc; simpl.
  all: repeat match goal with
         | |- True => exact I
         | |- _ /\ _ => split
         | |- everyLater _ _ (_ ++ _) => apply everyLater_app
         | |- everyLater _ _ [] => exact I
         | |- everyLater _ _ (_ :: _) => simpl
         | |- everyLater _ _ ?d =>
             eapply PollTrace_posts_nothing; eassumption
         end.
  all: intros c amount Hin Hdata.
  all: destruct Hin as [<- | []]; try discriminate Hdata.
  all: injection Hdata as <-.
  all: repeat apply observedAtLeast_cons.
  all: eapply PollTrace_true_observed; eassumption.
Qed.

Lemma PollTrace_true_read :
  forall token owner spender expected n delta,
    PollTrace token owner spender expected n (inr true) delta ->
    exists a,
      In (EvReadAllowance token owner spender (inr a)) delta
      /\ (expected <= a)%N.
Proof.
  intros token owner spender expected n delta H.
  remember (inr true) as r eqn:Hr.
  induction H as [ | n a Ha | n e | n a r rest Ha H IH ]; try discriminate Hr.
  - exists a. split; [left; reflexivity | exact Ha].
  - destruct (IH Hr) as (a' & Hin & Hle).
    exists a'. split; [right; right; exact Hin | exact Hle].
Qed.

Lemma PollTrace_posts_no_swap :
  forall page token owner spender expected n r delta past,
    PollTrace token owner spender expected n r delta ->
    everyLater (swapGuardedFor page) past delta.
Proof.
  intros page token owner spender expected n r delta past H. revert past.
  induction H; intros past; simpl; auto.
Qed.

(** The client half, for the swap at hand: in every run of [handleSwap], a
    post that carries [swapAToB(amount)] goes to the swap contract and
    comes after a read of the allowance of the source token that the smart
    account grants the swap contract, of at least [amount]. *)
Lemma handleSwap_posts_swap_after_its_allowance :
  forall (w : World) (page : Page),
    always (swapGuardedFor page) (trace (handleSwap page) w).
Proof.
  intros w [amount token [account | ] data]; unfold always.
  - unfold trace, run, handleSwap; simpl.
    match goal with
    | |- context [snd ?x] =>
        let out := fresh "out" in
        let Hrun := fresh "Hrun" in
        remember x as out eqn:Hrun; revert Hrun
    end.
    unfold finally, pureCall, external, emit, settle, pollForAllowance;
      simpl.
    repeat step; intros ->; simpl.
    all: rewrite <- ?app_assoc; simpl.
    all: repeat match goal with
           | |- True => exact I
           | |- _ /\ _ => split
           | |- everyLater _ _ (_ ++ _) => apply everyLater_app
           | |- everyLater _ _ [] => exact I
           | |- everyLater _ _ (_ :: _) => simpl
           | |- everyLater _ _ ?d =>
               eapply PollTrace_posts_no_swap; eassumption
           end.
    all: intros c amt Hin Hdata.
    all: destruct Hin as [<- | []]; try discriminate Hdata.
    all: injection Hdata as <-.
    all: split; [reflexivity | ].
    all: match goal with
         | Ht : PollTrace _ _ _ _ _ (inr true) _ |- _ =>
             destruct (PollTrace_true_read _ _ _ _ _ _ Ht) as (a & Hin & Hle)
         end.
    all: exists account, a; split; [reflexivity | split; [ | exact Hle]].
    all: do 3 right; exact Hin.
  - unfold trace, run, handleSwap; simpl.
    rewrite orb_true_r. exact I.
Qed.

(** C6.  [pollForAllowance] with its default budget, from any history:
    it makes at most 20 allowance reads; every read below the amount is
    followed by one 2000 ms delay and the next try; the first read that
    reaches the amount ends it with [true]; 20 reads below the amount end
    it with [false].  [handleSwap] never makes more than 20 reads, and when
    its 20 reads all come back below the amount, it logs the error
    "Allowance did not update in time.", posts no swap call at all, and
    leaves [swapStatus] at the error state. *)
Theorem poll_budget_and_timeout :
  (forall (w : World) (h : History) (owner spender : Address)
          (expected : N) (token : Address),
     exists r delta,
       pollForAllowance owner spender expected token defaultMaxTries w h =
         (r, h ++ delta)
       /\ PollTrace token owner spender expected 20 r delta
       /\ pollSummary expected 20 r delta
       /\ List.length (allowanceReads delta) <= 20)
  /\
  (forall (w : World) (page : Page),
     List.length (allowanceReads (trace (handleSwap page) w)) <= 20)
  /\
  (forall (w : World) (page : Page) (amount : N),
     parseUnits w (fromAmount page) (decimalsOf page) = inr amount ->
     List.length (allowanceReads (trace (handleSwap page) w)) = 20 ->
     Forall (fun r => exists a, r = inr a /\ (a < amount)%N)
       (allowanceReads (trace (handleSwap page) w)) ->
     In (EvConsoleError "Swap error:"
           (newError "Allowance did not update in time."))
        (trace (handleSwap page) w)
     /\ swapPosts (trace (handleSwap page) w) = []
     /\ swapStatusAfter None (trace (handleSwap page) w) = Some failed
     /\ outcome (handleSwap page) w = inr tt).
Proof.
  split; [ | split].
  - intros w h owner spender expected token.
    unfold pollForAllowance, defaultMaxTries.
    destruct (pollLoop_trace owner spender expected token w 20 h)
      as (r & delta & Hrun & Htrace).
    exists r, delta.
    split; [exact Hrun | ]. split; [exact Htrace | ].
    split; [ exact (PollTrace_summary _ _ _ _ _ _ _ Htrace)
           | exact (PollTrace_reads_bounded _ _ _ _ _ _ _ Htrace) ].
  - intros w page. paths page.
    all: rewrite ?allowanceReads_app; simpl; rewrite ?app_nil_r.
    all: try lia.
    all: eapply PollTrace_reads_bounded; eassumption.
  - intros w page amount. paths page.
    all: intros Hamount Hlen Hall.
    all: try discriminate Hamount; try discriminate Hlen.
    all: injection Hamount as ->.
    all: rewrite ?allowanceReads_app in Hlen, Hall; simpl in Hlen, Hall;
           rewrite ?app_nil_r in Hlen, Hall.
    all: match goal with
         | H : PollTrace _ _ _ _ _ _ _ |- _ =>
             pose proof (PollTrace_summary _ _ _ _ _ _ _ H)
               as (lows & Hlows & Hdelays & Hposts & Hr);
             pose proof (PollTrace_keeps_status _ _ _ _ _ _ _
                           (Some pending) H) as Hstatus
         end.
    all: try (destruct Hr as (Hreads & _); rewrite Hreads in Hall;
              apply Forall_app in Hall; destruct Hall as [_ Hlast];
              inversion Hlast as [ | ? ? (a' & Ha' & _) _ ];
              discriminate Ha').
    all: try (destruct Hr as (a & Hreads & Ha & _); rewrite Hreads in Hall;
              apply Forall_app in Hall; destruct Hall as [_ Hlast];
              inversion Hlast as [ | ? ? (a' & Ha' & Hlt) _ ];
              injection Ha' as <-; lia).
    all: rewrite <- ?app_assoc; simpl.
    all: split; [ do 3 right; apply in_or_app; right; left; reflexivity | ].
    all: split; [ unfold swapPosts; simpl; rewrite posts_app, Hposts;
                  reflexivity | ].
    all: split; [ | reflexivity ].
    all: rewrite swapStatusAfter_app, Hstatus; reflexivity.
Qed.


Lemma poll_budget_and_timeout_witness :
  (parseUnits neverApproved (fromAmount testPage) (decimalsOf testPage) =
     inr 100000000%N
   /\ List.length (allowanceReads (trace (handleSwap testPage) neverApproved))
        = 20
   /\ Forall (fun r => exists a, r = inr a /\ (a < 100000000)%N)
        (allowanceReads (trace (handleSwap testPage) neverApproved)))
  /\ swapPosts (trace (handleSwap testPage) neverApproved) = []
  /\ swapStatusAfter None (trace (handleSwap testPage) neverApproved) =
       Some failed.
Proof.
  assert (Hamount : parseUnits neverApproved (fromAmount testPage)
                      (decimalsOf testPage) = inr 100000000%N)
    by (vm_compute; reflexivity).
  assert (Hlen : List.length
                   (allowanceReads (trace (handleSwap testPage) neverApproved))
                 = 20)
    by (vm_compute; reflexivity).
  assert (Hall : Forall (fun r => exists a, r = inr a /\ (a < 100000000)%N)
                   (allowanceReads
                      (trace (handleSwap testPage) neverApproved))).
  { assert (Hreads : allowanceReads
                       (trace (handleSwap testPage) neverApproved) =
                     repeat (inr 0%N) 20)
      by (vm_compute; reflexivity).
    rewrite Hreads. simpl.
    repeat (constructor; [ exists 0%N; split; reflexivity | ]).
    constructor. }
  split; [ split; [exact Hamount | split; [exact Hlen | exact Hall]] | ].
  destruct poll_budget_and_timeout as (_ & _ & Htimeout).
  destruct (Htimeout neverApproved testPage 100000000%N Hamount Hlen Hall)
    as (_ & Hposts & Hstatus & _).
  split; assumption.
Defined.

#[local] Transparent pollLoop.

End SwapPageSpec.

(** * The allowance guard of the whole system *)

Module SystemSpec.

(** The run the invariant of the spec does not survive: the batch
    [approve(spender, 100)], [swapAToB(100)] posted to the endpoint,
    against a chain whose allowance read gives 1.  The only allowance read
    is below 100, and the swap is submitted all the same. *)
Lemma stale_allowance_still_swaps :
  Route.data Route.approveCall = approve Route.swapContract 100
  /\ Route.allowanceReads
       (Route.postTrace Route.testEnv (Route.chainWithAllowance 1)
          Route.scenario) = [inr 1%N]
  /\ List.length
       (Route.submissions
          (Route.postTrace Route.testEnv (Route.chainWithAllowance 1)
             Route.scenario)) = 2
  /\ Route.postOutcome Route.testEnv (Route.chainWithAllowance 1)
       Route.scenario =
       inr {| Route.body := Route.userOpHashPayload "0xswap-op";
              Route.status := 200 |}
  /\ ~ always (Route.laterSubmissionGuardedBy 100)
         (Route.postTrace Route.testEnv (Route.chainWithAllowance 1)
            Route.scenario).
Proof.
  split; [reflexivity | ].
  split; [vm_compute; reflexivity | ].
  split; [vm_compute; reflexivity | ].
  split; [vm_compute; reflexivity | ].
  intros Hall. vm_compute in Hall.
  destruct Hall
    as (_ & _ & _ & _ & _ & _ & _ & _ & _ & _ & _ & _ & _ & Hswap & _).
  destruct Hswap as (pc & token & owner & spender & a & Hin & Hle).
  - discriminate.
  - repeat (destruct Hin as [Hin | Hin]; [try discriminate Hin | ]);
      try contradiction.
    injection Hin as _ _ _ _ <-. apply Hle. reflexivity.
Qed.

(** C5, as the code has it.  The client posts a swap call only after it
    has read the allowance that goes with it (of the source token, granted
    by the smart account to the swap contract) and found it at least the
    amount of that call.  In a two-call batch the endpoint submits call[1]
    only after it has read the allowance that goes with the batch (on the
    target of call[0], granted by the account of the run to the target of
    call[1]) and found it other than zero; it never compares the allowance
    with an amount.  In no request does the endpoint make a submission
    after the first without a non-zero allowance read before it. *)
Theorem swap_waits_for_an_observed_allowance :
  (forall (w : SwapPage.World) (page : SwapPage.Page),
     always (SwapPage.swapGuardedFor page)
       (SwapPage.trace (SwapPage.handleSwap page) w))
  /\
  (forall (env : Route.ProcessEnv) (w : Route.World) (c0 c1 : Route.Call),
     always (Route.laterSubmissionGuardedFor c0 c1)
       (Route.postTrace env w [c0; c1]))
  /\
  (forall (env : Route.ProcessEnv) (req : Route.Request) (w : Route.World),
     always Route.laterSubmissionGuarded (Route.trace (Route.POST env req) w)).
Proof.
  split; [ | split].
  - exact SwapPageSpec.handleSwap_posts_swap_after_its_allowance.
  - exact RouteSpec.POST_submits_call1_only_after_its_allowance.
  - exact RouteSpec.POST_submits_again_only_after_nonzero_allowance.
Qed.

End SystemSpec.

(** * More properties of the endpoint *)

Module RouteMore.
Import Route.
Import RouteSpec.

(** An explicit trace is all but its last event, then that event. *)
Ltac ends_there :=
  match goal with
  | |- exists pre, ?tr = pre ++ _ => exists (removelast tr); reflexivity
  end.

(** ** [GET] *)

(** X1.  With the configuration present and no step throwing, [GET] does four
    things and no more: it derives the signer from [PRIVATE_KEY], builds
    the public client on [ZERODEV_RPC] and Sepolia, the validator and the
    account for entry point 0.7 and kernel 0.3.1, and answers status 200
    with the address of that account. *)
Theorem GET_answers_the_address_of_the_account_it_builds :
  forall (env : ProcessEnv) (w : World),
    configured env ->
    noThrow (trace (GET env) w) ->
    exists key rpc signer pc sudo account,
      PRIVATE_KEY env = Some key
      /\ ZERODEV_RPC env = Some rpc
      /\ trace (GET env) w =
           [ EvPrivateKeyToAccount key (inr signer);
             EvCreatePublicClient rpc sepolia (inr pc);
             EvSignerToEcdsaValidator pc signer (getEntryPoint "0.7")
               KERNEL_V3_1 (inr sudo);
             EvCreateKernelAccount pc sudo (getEntryPoint "0.7") KERNEL_V3_1
               (inr account) ]
      /\ outcome (GET env) w =
           inr {| body := addressPayload (address account); status := 200 |}.
Proof.
  intros [[key | ] [rpc | ]] w; unfold configured; simpl;
    intros [Hk Hr]; try discriminate.
  unfold noThrow, trace, outcome, run, GET; simpl.
  rewrite Hk, Hr; simpl.
  unfold external, emit; simpl.
  repeat step; intros Hq; try discriminate Hq.
  exists key, rpc. do 4 eexists. repeat split; reflexivity.
Qed.

Lemma GET_answers_the_address_of_the_account_it_builds_witness :
  (configured testEnv
   /\ noThrow (trace (GET testEnv) (chainWithAllowance 100)))
  /\ exists account,
       outcome (GET testEnv) (chainWithAllowance 100) =
         inr {| body := addressPayload (address account); status := 200 |}.
Proof.
  assert (Hc : configured testEnv) by (split; reflexivity).
  assert (Hq : noThrow (trace (GET testEnv) (chainWithAllowance 100)))
    by (vm_compute; reflexivity).
  split; [split; [exact Hc | exact Hq] | ].
  destruct (GET_answers_the_address_of_the_account_it_builds testEnv
              (chainWithAllowance 100) Hc Hq)
    as (key & rpc & signer & pc & sudo & account & _ & _ & _ & Hout).
  exists account. exact Hout.
Defined.

(** X2.  Whatever the configuration and whatever the services answer, [GET]
    submits nothing, waits for no receipt, reads no allowance, takes no
    delay and encodes no call. *)
Theorem GET_leaves_the_chain_alone :
  forall (env : ProcessEnv) (w : World),
    submissions (trace (GET env) w) = []
    /\ confirmations (trace (GET env) w) = []
    /\ allowanceReads (trace (GET env) w) = []
    /\ settleDelays (trace (GET env) w) = []
    /\ List.length (trace (GET env) w) <= 5.
Proof.
  intros env w. paths env; repeat split; simpl; lia.
Qed.

(** X3.  When an external call of [GET] is answered with an exception,
    the response has status 500 and its error text is [String(err)], the
    rendering of what was thrown (not its message); the handler logs the
    exception right after the failing call, once, and does nothing
    afterwards. *)
Theorem GET_reports_the_rendering_of_what_was_thrown :
  forall (env : ProcessEnv) (w : World) (ev : Event) (err : JsError),
    In ev (trace (GET env) w) ->
    thrownBy ev = Some err ->
    outcome (GET env) w =
      inr {| body := errorPayload (rendering err); status := 500 |}
    /\ exists pre,
         trace (GET env) w =
           pre ++ [ev; EvConsoleError "API /api/smartaccount GET error:" err]
         /\ noThrow pre.
Proof.
  intros env w ev err.
  paths env; intros H Ht; thrown H Ht.
  all: injection Ht as <-.
  all: split; [reflexivity | ].
  all: match goal with
       | |- exists pre, ?tr = _ /\ _ =>
           exists (removelast (removelast tr)); split; reflexivity
       end.
Qed.

Lemma GET_reports_the_rendering_of_what_was_thrown_witness :
  (In (EvCreateKernelAccount testPublicClient
         {| validator_address := "0xSigner" |} (getEntryPoint "0.7")
         KERNEL_V3_1 (inl accountDown))
      (trace (GET testEnv) chainWithoutAccount)
   /\ thrownBy
        (EvCreateKernelAccount testPublicClient
           {| validator_address := "0xSigner" |} (getEntryPoint "0.7")
           KERNEL_V3_1 (inl accountDown)) = Some accountDown)
  /\ outcome (GET testEnv) chainWithoutAccount =
       inr {| body := errorPayload (rendering accountDown); status := 500 |}.
Proof.
  assert (H : In (EvCreateKernelAccount testPublicClient
                    {| validator_address := "0xSigner" |}
                    (getEntryPoint "0.7") KERNEL_V3_1 (inl accountDown))
                 (trace (GET testEnv) chainWithoutAccount))
    by (vm_compute; repeat (first [left; reflexivity | right])).
  assert (Ht : thrownBy
                 (EvCreateKernelAccount testPublicClient
                    {| validator_address := "0xSigner" |}
                    (getEntryPoint "0.7") KERNEL_V3_1 (inl accountDown)) =
               Some accountDown)
    by reflexivity.
  split; [split; [exact H | exact Ht] | ].
  exact (proj1 (GET_reports_the_rendering_of_what_was_thrown testEnv
                  chainWithoutAccount _ accountDown H Ht)).
Defined.

(** ** [POST] *)

(** X4.  Every external call of [POST] that is answered with an exception
    ends the request: it is the last call of the run, the exception is
    logged once, right after it, and the answer is status 500.  The error
    text goes by the part of the handler the call belongs to:
    "Approve failed: " before the message for the approve step of a
    two-call batch (its encoding, submission, receipt wait and allowance
    read), "Swap failed: " for the swap step (the encoding and submission
    after it), the bare message for the single operation and for
    everything before the branch (body, signer, clients, validator,
    account). *)
Theorem POST_reports_each_failure_by_its_step :
  forall (env : ProcessEnv) (req : Request) (w : World),
    atEveryEvent (failureReported (outcome (POST env req) w))
      (trace (POST env req) w).
Proof.
  intros env req w. unfold atEveryEvent, failureReported, noThrow.
  shape req; paths env.
  all: repeat match goal with
         | |- True => exact I
         | |- _ /\ _ => split
         | |- forall err, _ -> _ =>
             let Ht := fresh "Ht" in
             intros ? Ht; simpl in Ht; try discriminate Ht;
             injection Ht as <-
         | |- _ = _ => reflexivity
         end.
Qed.

(** A bundler that rejects the second submission: the swap step's report. *)
Example swap_rejection_is_reported_as_swap_failure :
  outcome (POST testEnv (batchRequest scenario)) chainSwapRejected =
    inr {| body := errorPayload
             "Swap failed: bundler rejected the user operation";
           status := 500 |}.
Proof. vm_compute. reflexivity. Qed.

(** X5.  [POST] answers status 400 exactly when an allowance read of the run
    gave zero. *)
Theorem POST_answers_400_exactly_on_a_zero_allowance :
  forall (env : ProcessEnv) (req : Request) (w : World),
    statusOf (outcome (POST env req) w) = Some 400%N <->
    In (inr 0%N) (allowanceReads (trace (POST env req) w)).
Proof.
  intros env req w.
  shape req; paths env.
  all: try match goal with
           | E : (?n =? 0)%N = true |- _ => apply N.eqb_eq in E; subst n
           end.
  all: try match goal with
           | E : (?n =? 0)%N = false |- _ => apply N.eqb_neq in E
           end.
  all: split; intros H;
         try discriminate H; try contradiction; try reflexivity.
  all: try (left; reflexivity).
  all: members H.
  all: injection H as ->; congruence.
Qed.

(** X6.  However a request goes, [POST] makes at most two submissions, waits
    for at most one receipt, reads the allowance at most once, and takes
    at most one delay, of 30000 ms. *)
Theorem POST_effects_are_bounded :
  forall (env : ProcessEnv) (req : Request) (w : World),
    List.length (submissions (trace (POST env req) w)) <= 2
    /\ List.length (confirmations (trace (POST env req) w)) <= 1
    /\ List.length (allowanceReads (trace (POST env req) w)) <= 1
    /\ (settleDelays (trace (POST env req) w) = []
        \/ settleDelays (trace (POST env req) w) = [30000%N]).
Proof.
  intros env req w.
  shape req; paths env.
  all: repeat split; simpl; try lia.
  all: first [left; reflexivity | right; reflexivity].
Qed.

(** X7.  Every submission of [POST] carries [preVerificationGas] 70000 and goes
    through the one client of the request, built on the paymaster client
    the request created: no operation is sent unsponsored. *)
Theorem POST_submissions_are_sponsored_with_fixed_gas :
  forall (env : ProcessEnv) (req : Request) (w : World),
    Forall (sponsoredSubmission (trace (POST env req) w))
      (trace (POST env req) w).
Proof.
  intros env req w.
  shape req; paths env.
  all: repeat (apply Forall_cons; [ simpl | ]); try apply Forall_nil.
  all: try exact I.
  all: split; [reflexivity | ].
  all: do 4 eexists; split; pick.
Qed.

(** X8.  A status 200 from [POST] carries the handle that the last event of the
    run, a submission, was answered: the handle is returned as soon as the
    bundler gives it, with no receipt behind it. *)
Theorem POST_success_is_the_handle_of_the_last_submission :
  forall (env : ProcessEnv) (req : Request) (w : World) (hash : Hash),
    outcome (POST env req) w =
      inr {| body := userOpHashPayload hash; status := 200 |} ->
    exists pre client op,
      trace (POST env req) w =
        pre ++ [EvSendUserOperation client op (inr hash)].
Proof.
  intros env req w hash.
  shape req; paths env; intros H; try discriminate H.
  all: injection H as <-.
  all: match goal with
       | |- exists pre client op, ?tr = _ =>
           exists (removelast tr); do 2 eexists; reflexivity
       end.
Qed.

Lemma POST_success_is_the_handle_of_the_last_submission_witness :
  outcome (POST testEnv (batchRequest scenario)) (chainWithAllowance 100) =
    inr {| body := userOpHashPayload "0xswap-op"; status := 200 |}
  /\ exists pre client op,
       trace (POST testEnv (batchRequest scenario)) (chainWithAllowance 100) =
         pre ++ [EvSendUserOperation client op (inr "0xswap-op")].
Proof.
  assert (H : outcome (POST testEnv (batchRequest scenario))
                (chainWithAllowance 100) =
              inr {| body := userOpHashPayload "0xswap-op"; status := 200 |})
    by (vm_compute; reflexivity).
  split; [exact H | ].
  exact (POST_success_is_the_handle_of_the_last_submission testEnv
           (batchRequest scenario) (chainWithAllowance 100) "0xswap-op" H).
Defined.

(** X9.  When reading the body or building the signer, a client, the
    validator or the account is answered with an exception, the request
    ends before anything touches the chain: the exception is logged, the
    response is 500 with its message, and no call was encoded or
    submitted and no allowance read. *)
Theorem POST_outer_failure_comes_before_any_submission :
  forall (env : ProcessEnv) (req : Request) (w : World)
         (ev : Event) (err : JsError),
    In ev (trace (POST env req) w) ->
    isConstruction ev = true ->
    thrownBy ev = Some err ->
    In (EvConsoleError "API /api/smartaccount POST error:" err)
       (trace (POST env req) w)
    /\ submissions (trace (POST env req) w) = []
    /\ allowanceReads (trace (POST env req) w) = []
    /\ encodeResults (trace (POST env req) w) = []
    /\ outcome (POST env req) w =
         inr {| body := errorPayload (messageOf err); status := 500 |}.
Proof.
  intros env req w ev err.
  shape req; paths env; intros H Hc Ht; thrown H Ht.
  all: try discriminate Hc.
  all: injection Ht as <-.
  all: split; [pick | repeat split; reflexivity].
Qed.

Lemma POST_outer_failure_comes_before_any_submission_witness :
  (In (EvCreateKernelAccount testPublicClient
         {| validator_address := "0xSigner" |} (getEntryPoint "0.7")
         KERNEL_V3_1 (inl accountDown))
      (trace (POST testEnv (batchRequest scenario)) chainWithoutAccount)
   /\ isConstruction
        (EvCreateKernelAccount testPublicClient
           {| validator_address := "0xSigner" |} (getEntryPoint "0.7")
           KERNEL_V3_1 (inl accountDown)) = true
   /\ thrownBy
        (EvCreateKernelAccount testPublicClient
           {| validator_address := "0xSigner" |} (getEntryPoint "0.7")
           KERNEL_V3_1 (inl accountDown)) = Some accountDown)
  /\ submissions
       (trace (POST testEnv (batchRequest scenario)) chainWithoutAccount)
     = []
  /\ outcome (POST testEnv (batchRequest scenario)) chainWithoutAccount =
       inr {| body := errorPayload (messageOf accountDown); status := 500 |}.
Proof.
  assert (H : In (EvCreateKernelAccount testPublicClient
                    {| validator_address := "0xSigner" |}
                    (getEntryPoint "0.7") KERNEL_V3_1 (inl accountDown))
                 (trace (POST testEnv (batchRequest scenario))
                    chainWithoutAccount))
    by (vm_compute; repeat (first [left; reflexivity | right])).
  split; [split; [exact H | split; reflexivity] | ].
  destruct (POST_outer_failure_comes_before_any_submission testEnv
              (batchRequest scenario) chainWithoutAccount _ accountDown
              H eq_refl eq_refl)
    as (_ & Hs & _ & _ & Hout).
  split; [exact Hs | exact Hout].
Defined.

(** X10.  A body that does not parse is answered 500 with the parser's message
    before any SDK object is built.  A body without [calls] is answered 500
    as well, but only where [calls.length] is read: the signer, the
    clients, the validator and the account have all been built by then. *)
Theorem POST_malformed_body_is_a_500 :
  forall (env : ProcessEnv) (w : World),
    configured env ->
    (forall (req : Request) (err : JsError),
       json req = inl err ->
       trace (POST env req) w =
         [ EvReqJson (inl err);
           EvConsoleError "API /api/smartaccount POST error:" err ]
       /\ outcome (POST env req) w =
            inr {| body := errorPayload (messageOf err); status := 500 |})
    /\
    (forall (req : Request) (account : KernelAccount) (pc : PublicClient)
            (paymaster : PaymasterClient) (client : KernelClient),
       json req = inr {| calls := None |} ->
       In (EvCreateKernelAccountClient account sepolia
             match ZERODEV_RPC env with Some u => u | None => "" end
             pc paymaster (inr client))
          (trace (POST env req) w) ->
       List.length (trace (POST env req) w) = 8
       /\ submissions (trace (POST env req) w) = []
       /\ outcome (POST env req) w =
            inr {| body :=
                     errorPayload
                       "Cannot read properties of undefined (reading 'length')";
                   status := 500 |}).
Proof.
  intros [[key | ] [rpc | ]] w; unfold configured; simpl;
    intros [Hk Hr]; try discriminate.
  split.
  - intros req err Hjson.
    unfold trace, outcome, run, POST; simpl.
    rewrite Hk, Hr; simpl. unfold external; simpl. rewrite Hjson; simpl.
    split; reflexivity.
  - intros req account pc paymaster client Hjson.
    unfold trace, outcome, run, POST; simpl.
    rewrite Hk, Hr; simpl. unfold external, emit, lengthOf; simpl.
    rewrite Hjson; simpl.
    repeat step; intros H; members H.
    repeat split; reflexivity.
Qed.

Lemma POST_malformed_body_is_a_500_witness :
  (configured testEnv
   /\ json badJson = inl syntaxError
   /\ json noCalls = inr {| calls := None |}
   /\ In (EvCreateKernelAccountClient {| address := smartAccount |} sepolia
            "https://rpc.example" testPublicClient
            {| pm_transport := "https://rpc.example" |}
            (inr {| kc_account := {| address := smartAccount |};
                    kc_paymaster :=
                      {| pm_transport := "https://rpc.example" |} |}))
         (trace (POST testEnv noCalls) (chainWithAllowance 100)))
  /\ outcome (POST testEnv badJson) (chainWithAllowance 100) =
       inr {| body := errorPayload "Unexpected end of JSON input";
              status := 500 |}
  /\ submissions (trace (POST testEnv noCalls) (chainWithAllowance 100)) = [].
Proof.
  assert (Hc : configured testEnv) by (split; reflexivity).
  assert (Hb : json badJson = inl syntaxError) by reflexivity.
  assert (Hn : json noCalls = inr {| calls := None |}) by reflexivity.
  assert (Hq : In (EvCreateKernelAccountClient {| address := smartAccount |}
                     sepolia "https://rpc.example" testPublicClient
                     {| pm_transport := "https://rpc.example" |}
                     (inr {| kc_account := {| address := smartAccount |};
                             kc_paymaster :=
                               {| pm_transport := "https://rpc.example" |} |}))
                  (trace (POST testEnv noCalls) (chainWithAllowance 100)))
    by (vm_compute; repeat (first [left; reflexivity | right])).
  split; [ split; [exact Hc | split; [exact Hb | split; [exact Hn | exact Hq]]]
         | ].
  destruct (POST_malformed_body_is_a_500 testEnv (chainWithAllowance 100) Hc)
    as (Hbad & Hnone).
  split.
  - exact (proj2 (Hbad badJson syntaxError Hb)).
  - exact (proj1 (proj2 (Hnone noCalls _ _ _ _ Hn Hq))).
Defined.

(** X11.  In a two-call batch, when the swap step throws (the second
    encoding, that of call[1], or the second submission is answered with
    an exception), the response is 500 ["Swap failed: ..."], the exception
    is logged, and nothing undoes the approval: by then call[0] has been
    submitted and confirmed and the allowance has been read as non-zero,
    and no further submission is made. *)
Theorem POST_swap_failure_leaves_the_approval_in_place :
  forall (env : ProcessEnv) (w : World) (c0 c1 : Call) (err : JsError),
    nth_error (encodeResults (postTrace env w [c0; c1])) 1 = Some (inl err)
    \/ nth_error (submissionResults (postTrace env w [c0; c1])) 1 =
         Some (inl err) ->
    postOutcome env w [c0; c1] =
      inr {| body := errorPayload
                       (String.append "Swap failed: " (messageOf err));
             status := 500 |}
    /\ In (EvConsoleError "Swap step failed:" err) (postTrace env w [c0; c1])
    /\ exists hash0 receipt a,
         confirmations (postTrace env w [c0; c1]) = [inr receipt]
         /\ allowanceReads (postTrace env w [c0; c1]) = [inr a]
         /\ a <> 0%N
         /\ (submissionResults (postTrace env w [c0; c1]) = [inr hash0]
             \/ submissionResults (postTrace env w [c0; c1]) =
                  [inr hash0; inl err]).
Proof.
  intros env w c0 c1 err.
  paths env; intros [H | H]; try discriminate H.
  all: injection H as <-.
  all: split; [reflexivity | split; [pick | ]].
  all: do 3 eexists.
  all: split; [reflexivity | split; [reflexivity | split ]].
  all: try (apply N.eqb_neq; eassumption).
  all: first [left; reflexivity | right; reflexivity].
Qed.

Lemma POST_swap_failure_leaves_the_approval_in_place_witness :
  (nth_error (encodeResults (postTrace testEnv chainSwapRejected scenario)) 1
     = Some (inl bundlerDown)
   \/ nth_error
        (submissionResults (postTrace testEnv chainSwapRejected scenario)) 1
      = Some (inl bundlerDown))
  /\ postOutcome testEnv chainSwapRejected scenario =
       inr {| body := errorPayload
                "Swap failed: bundler rejected the user operation";
              status := 500 |}.
Proof.
  assert (H : nth_error
                (encodeResults (postTrace testEnv chainSwapRejected scenario))
                1 = Some (inl bundlerDown)
              \/ nth_error
                   (submissionResults
                      (postTrace testEnv chainSwapRejected scenario)) 1
                 = Some (inl bundlerDown))
    by (right; vm_compute; reflexivity).
  split; [exact H | ].
  exact (proj1 (POST_swap_failure_leaves_the_approval_in_place testEnv
                  chainSwapRejected approveCall swapCall bundlerDown H)).
Defined.

(** X12.  In a two-call batch, an allowance read that throws is answered 500
    ["Approve failed: ..."] although the approval itself went through:
    call[0] was submitted and its receipt had arrived.  Call[1] is not
    submitted and the read is not tried again. *)
Theorem POST_failed_allowance_read_counts_as_approve_failure :
  forall (env : ProcessEnv) (w : World) (c0 c1 : Call) (err : JsError),
    In (inl err) (allowanceReads (postTrace env w [c0; c1])) ->
    postOutcome env w [c0; c1] =
      inr {| body := errorPayload
                       (String.append "Approve failed: " (messageOf err));
             status := 500 |}
    /\ allowanceReads (postTrace env w [c0; c1]) = [inl err]
    /\ exists hash0 receipt,
         submissionResults (postTrace env w [c0; c1]) = [inr hash0]
         /\ confirmations (postTrace env w [c0; c1]) = [inr receipt].
Proof.
  intros env w c0 c1 err.
  paths env; intros H; members H.
  all: try discriminate.
  all: injection H as <-.
  all: split; [reflexivity | split; [reflexivity | ]].
  all: do 2 eexists; split; reflexivity.
Qed.

Lemma POST_failed_allowance_read_counts_as_approve_failure_witness :
  In (inl rpcDown) (allowanceReads (postTrace testEnv chainReadFails scenario))
  /\ postOutcome testEnv chainReadFails scenario =
       inr {| body := errorPayload "Approve failed: rpc unavailable";
              status := 500 |}.
Proof.
  assert (H : In (inl rpcDown)
                 (allowanceReads (postTrace testEnv chainReadFails scenario)))
    by (vm_compute; repeat (first [left; reflexivity | right])).
  split; [exact H | ].
  exact (proj1 (POST_failed_allowance_read_counts_as_approve_failure testEnv
                  chainReadFails approveCall swapCall rpcDown H)).
Defined.


Lemma POST_other_lengths_wait_for_nothing :
  forall (env : ProcessEnv) (w : World) (l : list Call),
    List.length l <> 2 ->
    confirmations (postTrace env w l) = []
    /\ settleDelays (postTrace env w l) = []
    /\ allowanceReads (postTrace env w l) = []
    /\ List.length (submissions (postTrace env w l)) <= 1
    /\ statusOf (postOutcome env w l) <> Some 400%N.
Proof.
  intros env w l Hlen.
  destruct l as [|c0 [|c1 [|c2 l]]]; try (exfalso; apply Hlen; reflexivity).
  all: paths env.
  all: repeat split; simpl; try lia; try discriminate.
Qed.

(** X13.  A batch of any length other than 2 is submitted and not followed up:
    [POST] makes at most one submission, encodes nothing beforehand, waits
    for no receipt and takes no delay, so that the handle it returns is
    that of an operation nobody has seen mined. *)
Theorem POST_single_operation_is_not_awaited :
  forall (env : ProcessEnv) (w : World) (l : list Call),
    List.length l <> 2 ->
    confirmations (postTrace env w l) = []
    /\ settleDelays (postTrace env w l) = []
    /\ allowanceReads (postTrace env w l) = []
    /\ List.length (submissions (postTrace env w l)) <= 1
    /\ statusOf (postOutcome env w l) <> Some 400%N.
Proof.
  intros env w l Hlen.
  destruct (POST_other_lengths_wait_for_nothing env w l Hlen)
    as (Hwait & Hdelay & Hread & Hsub & Hstatus).
  split; [exact Hwait | ]. split; [exact Hdelay | ].
  split; [exact Hread | ]. split; [exact Hsub | exact Hstatus].
Qed.

Lemma POST_single_operation_is_not_awaited_witness :
  List.length [swapCall] <> 2
  /\ confirmations (postTrace testEnv (chainWithAllowance 100) [swapCall])
       = [].
Proof.
  assert (H : List.length [swapCall] <> 2) by discriminate.
  split; [exact H | ].
  exact (proj1 (POST_single_operation_is_not_awaited testEnv
                  (chainWithAllowance 100) [swapCall] H)).
Defined.

End RouteMore.

(** * More properties of the swap client *)

Module SwapPageMore.
Import SwapPage.
Import SwapPageSpec.

(** As before, the loop is used through [pollLoop_trace]. *)
#[local] Opaque pollLoop.

Lemma fetchResults_app :
  forall a b : History, fetchResults (a ++ b) = fetchResults a ++ fetchResults b.
Proof.
  induction a as [|ev a IH]; intros b; simpl; [reflexivity | ].
  destruct ev; simpl; rewrite IH; reflexivity.
Qed.

Lemma fetchUrls_app :
  forall a b : History, fetchUrls (a ++ b) = fetchUrls a ++ fetchUrls b.
Proof.
  induction a as [|ev a IH]; intros b; simpl; [reflexivity | ].
  destruct ev; simpl; rewrite IH; reflexivity.
Qed.

Lemma isSwappingAfter_app :
  forall (a b : History) (b0 : bool),
    isSwappingAfter b0 (a ++ b) = isSwappingAfter (isSwappingAfter b0 a) b.
Proof.
  induction a as [|ev a IH]; intros b b0; simpl; [reflexivity | ].
  destruct ev; simpl; rewrite IH; reflexivity.
Qed.

(** The polling loop posts nothing and calls no setter. *)
Lemma PollTrace_is_quiet :
  forall token owner spender expected n r delta,
    PollTrace token owner spender expected n r delta ->
    posts delta = []
    /\ fetchResults delta = []
    /\ fetchUrls delta = []
    /\ (forall s, swapStatusAfter s delta = s)
    /\ (forall b, isSwappingAfter b delta = b).
Proof.
  intros token owner spender expected n r delta H.
  induction H as [ | n a Ha | n e | n a r rest Ha H IH ]; simpl;
    try (repeat split; reflexivity).
  exact IH.
Qed.

(** Bring the observers of a trace that runs through the polling loop to
    their values. *)
Ltac quiet :=
  match goal with
  | H : PollTrace _ _ _ _ _ _ _ |- _ =>
      let Hp := fresh "Hposts" in
      let Hf := fresh "Hfetch" in
      let Hu := fresh "Hurls" in
      let Hs := fresh "Hstatus" in
      let Hb := fresh "Hbusy" in
      pose proof (PollTrace_is_quiet _ _ _ _ _ _ _ H)
        as (Hp & Hf & Hu & Hs & Hb);
      rewrite <- ?app_assoc; simpl;
      rewrite ?posts_app, ?fetchResults_app, ?fetchUrls_app,
        ?swapStatusAfter_app, ?isSwappingAfter_app, ?allowanceReads_app;
      rewrite ?Hp, ?Hf, ?Hu, ?Hs, ?Hb; simpl
  end.

(** Membership in an explicit list, one case per entry. *)
Ltac members_of H :=
  simpl in H;
  repeat (destruct H as [H | H]; [ | ]);
  try contradiction.

(** ** [handleSwap] *)

(** X14.  With nothing in the amount field, or before the smart-account address
    is known, [handleSwap] returns at once: no setter is called, nothing is
    posted or read. *)
Theorem handleSwap_without_amount_or_account_does_nothing :
  forall (w : World) (page : Page),
    truthy (fromAmount page) = false
    \/ present (accountAddress page) = false ->
    run (handleSwap page) w = (inr tt, []).
Proof.
  intros w page H. unfold run, handleSwap.
  destruct H as [H | H]; rewrite H; simpl; [reflexivity | ].
  rewrite orb_true_r. reflexivity.
Qed.

Lemma handleSwap_without_amount_or_account_does_nothing_witness :
  (truthy (fromAmount emptyPage) = false
   \/ present (accountAddress emptyPage) = false)
  /\ run (handleSwap emptyPage) neverApproved = (inr tt, []).
Proof.
  split.
  - left. reflexivity.
  - apply (handleSwap_without_amount_or_account_does_nothing neverApproved
             emptyPage).
    left. reflexivity.
Defined.

(** X15.  [handleSwap] never throws.  Once it has started (an amount and an
    account are there) it first sets [isSwapping] and the pending status,
    and whatever happens it ends with [isSwapping] reset and the status at
    success or at error, never left pending. *)
Theorem handleSwap_always_settles :
  forall (w : World) (page : Page),
    outcome (handleSwap page) w = inr tt
    /\ (truthy (fromAmount page) = true ->
        present (accountAddress page) = true ->
        (exists rest,
           trace (handleSwap page) w =
             EvSetIsSwapping true :: EvSetSwapStatus pending
             :: rest ++ [EvSetIsSwapping false])
        /\ isSwappingAfter false (trace (handleSwap page) w) = false
        /\ (swapStatusAfter None (trace (handleSwap page) w) = Some success
            \/ swapStatusAfter None (trace (handleSwap page) w) =
                 Some failed)).
Proof.
  intros w page.
  paths page.
  all: split; [reflexivity | ].
  all: intros Ha Hb; try discriminate Ha; try discriminate Hb.
  all: try quiet.
  all: split;
         [ match goal with
           | |- exists rest, _ :: _ :: ?tr = _ =>
               rewrite <- ?app_assoc; simpl
           end
         | split; [reflexivity
                  | first [left; reflexivity | right; reflexivity]] ].
  all: try (match goal with
            | |- exists rest, _ :: _ :: ?tr = _ =>
                exists (removelast tr); reflexivity
            end).
  all: match goal with
       | |- exists rest, _ :: _ :: ?e :: ?delta ++ ?tl = _ =>
           exists (e :: delta ++ removelast tl);
           simpl; rewrite <- ?app_assoc; reflexivity
       end.
Qed.


Lemma handleSwap_always_settles_witness :
  (truthy (fromAmount testPage) = true
   /\ present (accountAddress testPage) = true)
  /\ isSwappingAfter false (trace (handleSwap testPage) approvedAtSecondRead)
       = false
  /\ (swapStatusAfter None (trace (handleSwap testPage) approvedAtSecondRead)
        = Some success
      \/ swapStatusAfter None
           (trace (handleSwap testPage) approvedAtSecondRead) = Some failed).
Proof.
  assert (Ha : truthy (fromAmount testPage) = true) by reflexivity.
  assert (Hb : present (accountAddress testPage) = true) by reflexivity.
  split; [split; [exact Ha | exact Hb] | ].
  destruct (handleSwap_always_settles approvedAtSecondRead testPage)
    as (_ & Hsettle).
  destruct (Hsettle Ha Hb) as (_ & Hbusy & Hstatus).
  split; [exact Hbusy | exact Hstatus].
Defined.

Lemma handleSwap_posts_are_single_calls :
  forall (w : World) (page : Page) (posted : list Call),
    In posted (posts (trace (handleSwap page) w)) ->
    List.length posted = 1.
Proof.
  intros w page posted.
  paths page.
  all: try quiet.
  all: intros H; members_of H.
  all: subst posted; reflexivity.
Qed.

(** X16.  Whatever happens, [handleSwap] posts at most twice, always to
    ["/api/smartaccount"] and always one call per post, never a two-call
    batch: first [approve(MOCK_SWAP_ADDRESS, amount)] on the source token,
    then [swapAToB(amount)] on the swap contract, with the same amount, the
    one [parseUnits] gave for the amount field. *)
Theorem handleSwap_posts_one_call_at_a_time :
  forall (w : World) (page : Page),
    posts (trace (handleSwap page) w) = []
    \/ exists amount,
         parseUnits w (fromAmount page) (decimalsOf page) = inr amount
         /\ Forall (fun url => url = "/api/smartaccount")
              (fetchUrls (trace (handleSwap page) w))
         /\ (posts (trace (handleSwap page) w) = [approvePost page amount]
             \/ posts (trace (handleSwap page) w) =
                  [approvePost page amount; swapPost amount]).
Proof.
  intros w page.
  paths page.
  all: try (left; reflexivity).
  all: right; eexists; split; [reflexivity | ].
  all: try quiet.
  all: split; [ repeat constructor | ].
  all: first [left; reflexivity | right; reflexivity].
Qed.

(** X17.  The status ends at success only when both posts were accepted: the
    run made exactly the approve post and the swap post, both were answered
    with [ok], and between them an allowance of at least the amount was
    read. *)
Theorem handleSwap_success_means_both_posts_were_accepted :
  forall (w : World) (page : Page),
    swapStatusAfter None (trace (handleSwap page) w) = Some success ->
    exists amount approveRes swapRes,
      parseUnits w (fromAmount page) (decimalsOf page) = inr amount
      /\ posts (trace (handleSwap page) w) =
           [approvePost page amount; swapPost amount]
      /\ fetchResults (trace (handleSwap page) w) =
           [inr approveRes; inr swapRes]
      /\ ok approveRes = true
      /\ ok swapRes = true
      /\ observedAtLeast amount (trace (handleSwap page) w).
Proof.
  intros w page.
  paths page.
  all: try quiet.
  all: intros H; try discriminate H.
  do 3 eexists.
  split; [reflexivity | ].
  split; [reflexivity | ].
  split; [reflexivity | ].
  split; [apply negb_false_iff; eassumption | ].
  split; [apply negb_false_iff; eassumption | ].
  repeat apply observedAtLeast_cons.
  match goal with
  | Ht : PollTrace _ _ _ _ _ (inr true) ?d |- observedAtLeast _ (?d ++ ?tl) =>
      destruct (PollTrace_true_observed _ _ _ _ _ _ Ht)
        as (t & o & sp & a & Hin & Hle);
      exists t, o, sp, a; split; [apply in_or_app; left; exact Hin | exact Hle]
  end.
Qed.

Lemma handleSwap_success_means_both_posts_were_accepted_witness :
  swapStatusAfter None (trace (handleSwap testPage) approvedAtSecondRead) =
    Some success
  /\ exists amount,
       posts (trace (handleSwap testPage) approvedAtSecondRead) =
         [approvePost testPage amount; swapPost amount].
Proof.
  assert (H : swapStatusAfter None
                (trace (handleSwap testPage) approvedAtSecondRead) =
              Some success)
    by (vm_compute; reflexivity).
  split; [exact H | ].
  destruct (handleSwap_success_means_both_posts_were_accepted
              approvedAtSecondRead testPage H)
    as (amount & _ & _ & _ & Hposts & _).
  exists amount. exact Hposts.
Defined.


(** X18.  When the endpoint answers the approve post with a status that is not
    ok, [handleSwap] stops there: it logs the endpoint's error text (or
    "Approve step failed" when the answer has none), reads no allowance,
    posts nothing more, and ends in the error state. *)
Theorem handleSwap_rejected_approval_stops :
  forall (w : World) (page : Page) (res : FetchResponse) (j : ResponseJson),
    hd_error (fetchResults (trace (handleSwap page) w)) = Some (inr res) ->
    ok res = false ->
    json res = inr j ->
    In (EvConsoleError "Swap error:"
          (newError (errorOr j "Approve step failed")))
       (trace (handleSwap page) w)
    /\ allowanceReads (trace (handleSwap page) w) = []
    /\ List.length (posts (trace (handleSwap page) w)) = 1
    /\ swapStatusAfter None (trace (handleSwap page) w) = Some failed.
Proof.
  intros w page res j.
  paths page.
  all: try quiet.
  all: intros H Hok Hjson; try discriminate H.
  all: injection H as <-.
  all: try (rewrite Hok in *; discriminate).
  all: try congruence.
  all: match goal with
       | E : json _ = inr _ |- _ =>
           rewrite E in Hjson; injection Hjson as <-
       end.
  all: repeat split; try reflexivity.
  all: simpl; tauto.
Qed.

Lemma handleSwap_rejected_approval_stops_witness :
  (hd_error (fetchResults (trace (handleSwap testPage) endpointRejects)) =
     Some rejected
   /\ ok {| ok := false;
            json := inr {| error :=
                             Some "bundler rejected the user operation" |} |}
      = false
   /\ json {| ok := false;
              json := inr {| error :=
                               Some "bundler rejected the user operation" |} |}
      = inr {| error := Some "bundler rejected the user operation" |})
  /\ allowanceReads (trace (handleSwap testPage) endpointRejects) = []
  /\ swapStatusAfter None (trace (handleSwap testPage) endpointRejects) =
       Some failed.
Proof.
  assert (H : hd_error (fetchResults
                          (trace (handleSwap testPage) endpointRejects)) =
              Some rejected)
    by (vm_compute; reflexivity).
  split; [split; [exact H | split; reflexivity] | ].
  destruct (handleSwap_rejected_approval_stops endpointRejects testPage
              _ _ H eq_refl eq_refl)
    as (_ & Hreads & _ & Hstatus).
  split; [exact Hreads | exact Hstatus].
Defined.

(** X19.  An allowance read that throws is not tried again: it ends the poll and
    the swap.  [handleSwap] logs that exception, posts no swap call and
    ends in the error state. *)
Theorem handleSwap_failed_read_is_not_retried :
  forall (w : World) (page : Page) (err : JsError),
    In (inl err) (allowanceReads (trace (handleSwap page) w)) ->
    In (EvConsoleError "Swap error:" err) (trace (handleSwap page) w)
    /\ (exists earlier,
          allowanceReads (trace (handleSwap page) w) = earlier ++ [inl err])
    /\ swapPosts (trace (handleSwap page) w) = []
    /\ swapStatusAfter None (trace (handleSwap page) w) = Some failed.
Proof.
  intros w page err.
  paths page.
  all: try (intros H; contradiction).
  all: match goal with
       | H : PollTrace _ _ _ _ _ _ _ |- _ =>
           pose proof (PollTrace_summary _ _ _ _ _ _ _ H)
             as (lows & Hlows & _ & _ & Hr)
       end.
  all: unfold swapPosts; quiet.
  all: rewrite ?app_nil_r.
  all: intros H.
  (* the loop returned: every read of it was answered *)
  all: try (destruct Hr as (a & Hreads & _); rewrite Hreads in H;
            apply in_app_or in H; destruct H as [H | [H | []]];
            [ apply in_map_iff in H; destruct H as (x & Hx & _) | ];
            discriminate).
  all: try (destruct Hr as (Hreads & _); rewrite Hreads in H;
            apply in_map_iff in H; destruct H as (x & Hx & _);
            discriminate).
  (* the loop threw: at its last read *)
  all: destruct Hr as (Hreads & _); rewrite Hreads in H |- *.
  all: apply in_app_or in H; destruct H as [H | [H | []]];
         [ apply in_map_iff in H; destruct H as (x & Hx & _); discriminate
         | ].
  all: injection H as <-.
  all: split; [ do 3 right; apply in_or_app; right; left; reflexivity | ].
  all: split; [ eexists; reflexivity | ].
  all: split; reflexivity.
Qed.

Lemma handleSwap_failed_read_is_not_retried_witness :
  In (inl rpcDown) (allowanceReads (trace (handleSwap testPage) readFailsThird))
  /\ swapPosts (trace (handleSwap testPage) readFailsThird) = []
  /\ swapStatusAfter None (trace (handleSwap testPage) readFailsThird) =
       Some failed.
Proof.
  assert (H : In (inl rpcDown)
                 (allowanceReads (trace (handleSwap testPage) readFailsThird)))
    by (vm_compute; repeat (first [left; reflexivity | right])).
  split; [exact H | ].
  destruct (handleSwap_failed_read_is_not_retried readFailsThird testPage
              rpcDown H)
    as (_ & _ & Hposts & Hstatus).
  split; [exact Hposts | exact Hstatus].
Defined.


(** ** [pollForAllowance] with any budget *)

Lemma PollTrace_delay :
  forall token owner spender expected n r delta,
    PollTrace token owner spender expected n r delta ->
    (totalDelay delta <= 2000 * N.of_nat n)%N
    /\ (r = inr false ->
        List.length (allowanceReads delta) = n
        /\ totalDelay delta = (2000 * N.of_nat n)%N)
    /\ (r = inr true ->
        (totalDelay delta < 2000 * N.of_nat n)%N).
Proof.
  intros token owner spender expected n r delta H.
  induction H as [ | n a Ha | n e | n a r rest Ha H IH ];
    unfold totalDelay in *;
    cbn [delays allowanceReads fold_right List.length].
  - split; [simpl; lia | ].
    split; [intros _; split; reflexivity | intros Hr; discriminate Hr].
  - split; [lia | ].
    split; [intros Hr; discriminate Hr | intros _; lia].
  - split; [lia | ].
    split; intros Hr; discriminate Hr.
  - destruct IH as (Hle & Hfalse & Htrue).
    split; [lia | ]. split.
    + intros Hr. destruct (Hfalse Hr) as (Hlen & Htotal). split; lia.
    + intros Hr. specialize (Htrue Hr). lia.
Qed.

(** X20.  Whatever [maxTries] is given, [pollForAllowance] makes at most that
    many reads and spends at most [2000 * maxTries] ms in delays; it spends
    all of it exactly when it gives up with [false], and less when it
    returns [true].  With a budget of 0 it returns [false] at once without
    reading the chain. *)
Theorem pollForAllowance_stays_within_its_budget :
  forall (w : World) (h : History) (owner spender : Address)
         (expected : N) (token : Address) (maxTries : nat),
    exists r delta,
      pollForAllowance owner spender expected token maxTries w h =
        (r, h ++ delta)
      /\ List.length (allowanceReads delta) <= maxTries
      /\ (totalDelay delta <= 2000 * N.of_nat maxTries)%N
      /\ (r = inr false ->
          List.length (allowanceReads delta) = maxTries
          /\ totalDelay delta = (2000 * N.of_nat maxTries)%N)
      /\ (r = inr true ->
          (totalDelay delta < 2000 * N.of_nat maxTries)%N)
      /\ (maxTries = 0 -> r = inr false /\ delta = []).
Proof.
  intros w h owner spender expected token maxTries.
  unfold pollForAllowance.
  destruct (pollLoop_trace owner spender expected token w maxTries h)
    as (r & delta & Hrun & Htrace).
  exists r, delta.
  split; [exact Hrun | ].
  split; [exact (PollTrace_reads_bounded _ _ _ _ _ _ _ Htrace) | ].
  destruct (PollTrace_delay _ _ _ _ _ _ _ Htrace) as (Hle & Hfalse & Htrue).
  split; [exact Hle | ]. split; [exact Hfalse | ]. split; [exact Htrue | ].
  intros ->. inversion Htrace. split; reflexivity.
Qed.

(** ** [isSwapping] as a guard *)

Lemma PollTrace_stays_busy :
  forall token owner spender expected n r delta past,
    PollTrace token owner spender expected n r delta ->
    isSwappingAfter false past = true ->
    everyLater busyWhileWorking past delta.
Proof.
  intros token owner spender expected n r delta past H. revert past.
  induction H as [ | n a Ha | n e | n a r rest Ha H IH ];
    intros past Hbusy; simpl; auto.
  split; [exact Hbusy | ]. split.
  - rewrite isSwappingAfter_app. simpl. exact Hbusy.
  - apply IH. rewrite !isSwappingAfter_app. simpl. exact Hbusy.
Qed.

(** Everything [handleSwap] does outside the component (each post, each
    allowance read, each delay) happens while [isSwapping] is set: the
    flag goes up before the first post and comes down after the last
    effect. *)
Theorem handleSwap_works_only_while_isSwapping :
  forall (w : World) (page : Page),
    always busyWhileWorking (trace (handleSwap page) w).
Proof.
  intros w page. unfold always.
  paths page.
  all: rewrite <- ?app_assoc; simpl.
  all: repeat match goal with
         | |- True => exact I
         | |- _ /\ _ => split
         | |- _ = _ => reflexivity
         | |- everyLater _ _ (_ ++ _) => apply everyLater_app
         | |- everyLater _ _ [] => exact I
         | |- everyLater _ _ (_ :: _) => simpl
         | H : PollTrace _ _ _ _ _ _ ?d |- everyLater _ _ ?d =>
             apply (PollTrace_stays_busy _ _ _ _ _ _ _ _ H); reflexivity
         end.
  all: match goal with
       | H : PollTrace _ _ _ _ _ _ ?d |- _ =>
           pose proof (PollTrace_is_quiet _ _ _ _ _ _ _ H)
             as (_ & _ & _ & _ & Hbusy)
       end.
  all: rewrite ?isSwappingAfter_app, ?Hbusy; simpl; rewrite ?Hbusy;
         reflexivity.
Qed.

#[local] Transparent pollLoop.

End SwapPageMore.

(** * Properties of the form *)

Module SwapFormSpec.
Import SwapPage.
Import SwapForm.

Lemma findToken_listed :
  forall (value : string) (t : Token),
    findToken value = Some t -> In t tokens /\ symbol t = value.
Proof.
  intros value t H. unfold findToken in H.
  apply find_some in H. destruct H as [Hin Heq].
  split; [exact Hin | apply String.eqb_eq; exact Heq].
Qed.

Lemma findIndex_listed :
  forall (ts : list Token) (t : Token),
    In t ts ->
    exists i, findIndex (symbol t) ts = Some i /\ i < List.length ts.
Proof.
  induction ts as [|t0 ts IH]; intros t Hin; [contradiction | ].
  simpl. destruct (String.eqb (symbol t0) (symbol t)) eqn:E.
  - exists 0. split; [reflexivity | lia].
  - destruct Hin as [-> | Hin]; [rewrite String.eqb_refl in E; discriminate | ].
    destruct (IH t Hin) as (i & Hi & Hlt).
    exists (S i). rewrite Hi. split; [reflexivity | lia].
Qed.

Lemma act_keeps_listed_tokens :
  forall (s : State) (a : Action),
    In (fromToken s) tokens /\ In (toToken s) tokens ->
    In (fromToken (act s a)) tokens /\ In (toToken (act s a)) tokens.
Proof.
  intros s a [Hfrom Hto].
  destruct a as [v | v | v | v | | p | tr]; simpl.
  - unfold selectFrom. destruct (findToken v) as [t | ] eqn:E; simpl.
    + split; [exact (proj1 (findToken_listed v t E)) | exact Hto].
    + split; assumption.
  - unfold selectTo. destruct (findToken v) as [t | ] eqn:E; simpl.
    + split; [exact Hfrom | exact (proj1 (findToken_listed v t E))].
    + split; assumption.
  - split; assumption.
  - split; assumption.
  - split; assumption.
  - unfold walletEffect. destruct p; simpl; split; assumption.
  - split; assumption.
Qed.

(** X21.  Whatever the user does (selecting tokens, typing amounts, flipping the
    direction, connecting a wallet, swapping), both selected tokens stay
    entries of the token list.  So the index [handleSwap] looks the source
    token up at is never -1, and the decimals it reads are at slot 1 or 3
    of the loaded data. *)
Theorem selected_tokens_stay_listed :
  forall actions : list Action,
    In (fromToken (after actions)) tokens
    /\ In (toToken (after actions)) tokens
    /\ exists i,
         findIndex (symbol (fromToken (after actions))) tokens = Some i
         /\ i < 2.
Proof.
  intros actions.
  assert (H : In (fromToken (after actions)) tokens
              /\ In (toToken (after actions)) tokens).
  { unfold after.
    assert (Hinit : In (fromToken initial) tokens
                    /\ In (toToken initial) tokens)
      by (split; simpl; tauto).
    revert Hinit. generalize initial.
    induction actions as [|a actions IH]; intros s Hs; simpl.
    - exact Hs.
    - apply IH. apply act_keeps_listed_tokens. exact Hs. }
  destruct H as [Hfrom Hto].
  split; [exact Hfrom | split; [exact Hto | ]].
  exact (findIndex_listed tokens _ Hfrom).
Qed.

(** X22.  Flipping the direction twice gives the form back as it was: the two
    tokens and the two amounts change sides together, and nothing else
    changes. *)
Theorem flipDirection_twice_is_identity :
  forall s : State,
    flipDirection (flipDirection s) = s
    /\ fromToken (flipDirection s) = toToken s
    /\ toToken (flipDirection s) = fromToken s
    /\ fromAmount (flipDirection s) = toAmount s
    /\ toAmount (flipDirection s) = fromAmount s.
Proof.
  intros [ft tt fa ta c sw st]. repeat split; reflexivity.
Qed.

(** X23.  Selecting a symbol of the token list puts the token of that
    symbol on that side and leaves everything else alone: the other
    token, both amounts, and the connection, swapping and status cells.  A
    value that is no listed symbol changes nothing. *)
Theorem select_takes_listed_symbols_only :
  forall (value : string) (s : State),
    (In value (map symbol tokens) ->
     symbol (fromToken (selectFrom value s)) = value
     /\ symbol (toToken (selectTo value s)) = value)
    /\ (~ In value (map symbol tokens) ->
        selectFrom value s = s /\ selectTo value s = s)
    /\ toToken (selectFrom value s) = toToken s
    /\ fromToken (selectTo value s) = fromToken s
    /\ fromAmount (selectFrom value s) = fromAmount s
    /\ fromAmount (selectTo value s) = fromAmount s
    /\ toAmount (selectFrom value s) = toAmount s
    /\ toAmount (selectTo value s) = toAmount s
    /\ isConnected (selectFrom value s) = isConnected s
    /\ isConnected (selectTo value s) = isConnected s
    /\ isSwapping (selectFrom value s) = isSwapping s
    /\ isSwapping (selectTo value s) = isSwapping s
    /\ swapStatus (selectFrom value s) = swapStatus s
    /\ swapStatus (selectTo value s) = swapStatus s.
Proof.
  intros value s.
  assert (Hlisted : In value (map symbol tokens) -> findToken value <> None).
  { intros Hin E. apply in_map_iff in Hin.
    destruct Hin as (t & Hsym & Hin). unfold findToken in E.
    pose proof (find_none _ _ E t Hin) as Hne. simpl in Hne.
    rewrite Hsym, String.eqb_refl in Hne. discriminate. }
  unfold selectFrom, selectTo.
  destruct (findToken value) as [t | ] eqn:E.
  - destruct (findToken_listed value t E) as [Hin Hsym].
    split; [intros _; split; exact Hsym | ].
    split; [ | repeat split; reflexivity].
    intros Hno. exfalso. apply Hno. rewrite <- Hsym.
    apply in_map. exact Hin.
  - split; [intros Hin; exfalso; exact (Hlisted Hin eq_refl) | ].
    split; [intros _; split; reflexivity | repeat split; reflexivity].
Qed.

(** X24.  The form does not keep the two sides apart: selecting the same listed
    symbol on both sides leaves the same token as source and as target. *)
Theorem same_token_can_be_on_both_sides :
  forall (value : string) (s : State),
    In value (map symbol tokens) ->
    fromToken (selectTo value (selectFrom value s)) =
    toToken (selectTo value (selectFrom value s)).
Proof.
  intros value s Hin. unfold selectTo, selectFrom.
  destruct (findToken value) as [t | ] eqn:E; simpl.
  - reflexivity.
  - exfalso. apply in_map_iff in Hin. destruct Hin as (t & Hsym & Hin).
    unfold findToken in E.
    pose proof (find_none _ _ E t Hin) as Hne. simpl in Hne.
    rewrite Hsym, String.eqb_refl in Hne. discriminate.
Qed.

Lemma same_token_can_be_on_both_sides_witness :
  In "PEPE" (map symbol tokens)
  /\ fromToken (selectTo "PEPE" (selectFrom "PEPE" initial)) =
     toToken (selectTo "PEPE" (selectFrom "PEPE" initial)).
Proof.
  assert (H : In "PEPE" (map symbol tokens)) by (simpl; tauto).
  split; [exact H | ].
  exact (same_token_can_be_on_both_sides "PEPE" initial H).
Defined.


(** ** The swap button *)

Lemma isSwappingAfter_once_set :
  forall (past : SwapPage.History) (b : bool),
    isSwappingAfter false past = true -> isSwappingAfter b past = true.
Proof.
  induction past as [|ev past IH]; intros b H; simpl in *.
  - discriminate H.
  - destruct ev; simpl in *; auto.
Qed.

Lemma everyLater_weaken :
  forall (R R' : SwapPage.History -> SwapPage.Event -> Prop),
    (forall past ev, R past ev -> R' past ev) ->
    forall tr past, everyLater R past tr -> everyLater R' past tr.
Proof.
  intros R R' Himp. induction tr as [|ev tr IH]; intros past H; simpl in *.
  - exact I.
  - destruct H as [Hev Hrest]. split; [apply Himp; exact Hev | ].
    apply IH. exact Hrest.
Qed.

(** X25.  From whatever state the form is in, the swap button is disabled at
    every post, allowance read and delay of a running [handleSwap]: a
    second click cannot start a second swap while the first is at work. *)
Theorem swap_button_is_disabled_while_handleSwap_works :
  forall (w : World) (s : State) (account : option Address)
         (data : option (list N)),
    always (disabledWhileWorking s)
      (SwapPage.trace (handleSwap (pageOf s account data)) w).
Proof.
  intros w s account data. unfold always.
  apply (everyLater_weaken busyWhileWorking).
  - intros past ev H. destruct ev; simpl in *; try exact I.
    all: unfold swapDisabled; simpl.
    all: rewrite (isSwappingAfter_once_set past (isSwapping s) H).
    all: apply orb_true_r.
  - apply SwapPageMore.handleSwap_works_only_while_isSwapping.
Qed.

(** ** The balances *)

Lemma mapFrom_tokens :
  forall (formatUnits : N -> N -> string) (data : option (list N))
         (ts : list Token) (i : nat),
    map token (mapFrom formatUnits i data ts) = ts.
Proof.
  intros formatUnits data ts. induction ts as [|t ts IH]; intros i; simpl.
  - reflexivity.
  - rewrite IH. reflexivity.
Qed.

Lemma mapFrom_loading :
  forall (formatUnits : N -> N -> string) (ts : list Token) (i : nat),
    Forall (fun b => formatted b = "-") (mapFrom formatUnits i None ts).
Proof.
  intros formatUnits ts. induction ts as [|t ts IH]; intros i; simpl.
  - constructor.
  - constructor; [reflexivity | apply IH].
Qed.

(** X26.  [TokenBalances] lists the tokens of the token list, in their order,
    whatever has been loaded; while nothing is loaded every balance reads
    "-", and so does the balance shown for a symbol that is not listed. *)
Theorem TokenBalances_lists_every_token :
  forall (formatUnits : N -> N -> string) (data : option (list N)),
    map token (TokenBalances formatUnits data) = tokens
    /\ Forall (fun b => formatted b = "-") (TokenBalances formatUnits None)
    /\ (forall sym, shownBalance formatUnits None sym = "-")
    /\ (forall sym, ~ In sym (map symbol tokens) ->
                    shownBalance formatUnits data sym = "-").
Proof.
  intros formatUnits data.
  split; [apply mapFrom_tokens | ].
  split; [apply mapFrom_loading | ].
  split.
  - intros sym. unfold shownBalance.
    destruct (find _ (TokenBalances formatUnits None)) as [b | ] eqn:E;
      [ | reflexivity].
    apply find_some in E. destruct E as [Hin _].
    pose proof (mapFrom_loading formatUnits tokens 0) as Hall.
    rewrite Forall_forall in Hall. exact (Hall b Hin).
  - intros sym Hno. unfold shownBalance.
    destruct (find _ (TokenBalances formatUnits data)) as [b | ] eqn:E;
      [ | reflexivity].
    apply find_some in E. destruct E as [Hin Heq].
    exfalso. apply Hno. apply String.eqb_eq in Heq. rewrite <- Heq.
    rewrite <- (mapFrom_tokens formatUnits data tokens 0).
    rewrite map_map. apply (in_map (fun b => symbol (token b))).
    exact Hin.
Qed.

(** X27.  Once the data is loaded (a balance and a decimals entry per token), the
    balance shown under the source input is formatted with the very
    decimals [handleSwap] parses the typed amount with. *)
Theorem shown_balance_and_parsed_amount_share_decimals :
  forall (formatUnits : N -> N -> string) (s : State)
         (account : option Address) (d : list N),
    In (fromToken s) tokens ->
    List.length d = 2 * List.length tokens ->
    exists balance,
      shownBalance formatUnits (Some d) (symbol (fromToken s)) =
        formatUnits balance (decimalsOf (pageOf s account (Some d))).
Proof.
  intros formatUnits s account d Hin Hlen.
  destruct d as [|b0 [|d0 [|b1 [|d1 [|x d]]]]]; try discriminate Hlen.
  unfold decimalsOf, pageOf; simpl SwapPage.fromToken; simpl contractData.
  destruct Hin as [<- | [<- | []]].
  - exists b0. reflexivity.
  - exists b1. reflexivity.
Qed.

Lemma shown_balance_and_parsed_amount_share_decimals_witness :
  (In (fromToken initial) tokens
   /\ List.length loadedData = 2 * List.length tokens)
  /\ exists balance,
       shownBalance plainUnits (Some loadedData) (symbol (fromToken initial))
       = plainUnits balance
           (decimalsOf (pageOf initial None (Some loadedData))).
Proof.
  assert (Hin : In (fromToken initial) tokens) by (simpl; tauto).
  assert (Hlen : List.length loadedData = 2 * List.length tokens)
    by reflexivity.
  split; [split; [exact Hin | exact Hlen] | ].
  exact (shown_balance_and_parsed_amount_share_decimals plainUnits
           initial None loadedData Hin Hlen).
Defined.

(** On that data the source balance reads 5000 raw units at 6 decimals,
    the decimals of the amount as well. *)
Example shown_balance_of_the_loaded_wallet :
  shownBalance plainUnits (Some loadedData) (symbol (fromToken initial)) =
    "5000e-6"
  /\ decimalsOf (pageOf initial None (Some loadedData)) = 6%N.
Proof. split; vm_compute; reflexivity. Qed.

End SwapFormSpec.

(** * The client against the endpoint *)

Module SystemMore.

(** X28.  Every post of [handleSwap] carries one call, so the endpoint takes it
    through its single-operation branch: whatever the chain answers, the
    endpoint waits for no receipt, reads no allowance and takes no delay
    for it, makes at most one submission, and never answers it with 400.
    The confirmation of the approval is the client's own poll alone. *)
Theorem endpoint_does_not_await_the_posts_of_the_client :
  forall (w : SwapPage.World) (page : SwapPage.Page)
         (env : Route.ProcessEnv) (chain : Route.World)
         (posted : list SwapPage.Call),
    In posted (SwapPage.posts (SwapPage.trace (SwapPage.handleSwap page) w)) ->
    List.length posted = 1
    /\ Route.confirmations
         (Route.postTrace env chain (Wire.receivedBatch posted)) = []
    /\ Route.settleDelays
         (Route.postTrace env chain (Wire.receivedBatch posted)) = []
    /\ Route.allowanceReads
         (Route.postTrace env chain (Wire.receivedBatch posted)) = []
    /\ List.length
         (Route.submissions
            (Route.postTrace env chain (Wire.receivedBatch posted))) <= 1
    /\ Route.statusOf
         (Route.postOutcome env chain (Wire.receivedBatch posted)) <>
       Some 400%N.
Proof.
  intros w page env chain posted Hin.
  assert (Hone : List.length posted = 1)
    by exact (SwapPageMore.handleSwap_posts_are_single_calls w page posted
                Hin).
  split; [exact Hone | ].
  apply RouteMore.POST_other_lengths_wait_for_nothing.
  unfold Wire.receivedBatch. rewrite length_map, Hone. discriminate.
Qed.

Lemma endpoint_does_not_await_the_posts_of_the_client_witness :
  In (SwapPage.approvePost SwapPage.testPage 100000000)
     (SwapPage.posts
        (SwapPage.trace (SwapPage.handleSwap SwapPage.testPage)
           SwapPage.approvedAtSecondRead))
  /\ Route.confirmations
       (Route.postTrace Route.testEnv (Route.chainWithAllowance 100)
          (Wire.receivedBatch
             (SwapPage.approvePost SwapPage.testPage 100000000))) = [].
Proof.
  assert (H : In (SwapPage.approvePost SwapPage.testPage 100000000)
                 (SwapPage.posts
                    (SwapPage.trace (SwapPage.handleSwap SwapPage.testPage)
                       SwapPage.approvedAtSecondRead)))
    by (vm_compute; left; reflexivity).
  split; [exact H | ].
  exact (proj1 (proj2 (endpoint_does_not_await_the_posts_of_the_client
                         SwapPage.approvedAtSecondRead SwapPage.testPage
                         Route.testEnv (Route.chainWithAllowance 100)
                         _ H))).
Defined.

End SystemMore.
